(** * RESCRIPt, [rescript/get_unite.py]: retrieval of a UNITE release

    A shallow embedding of the five functions of [get_unite.py] and the
    properties its specification states about them.  Python values are
    modelled by the types below; everything the functions do to the outside
    world (HTTP requests, the file system, temporary directories, the QIIME 2
    import, standard output) goes through a state-and-exception monad whose
    state records the file system and the trace of effects, and whose
    environment answers for the collaborators the source only calls. *)

From Stdlib Require Import ZArith Ascii String List Lia Bool.
From stdpp Require Import base option list strings gmap.

Local Open Scope string_scope.
Local Open Scope Z_scope.

(** ** Python strings *)

Module PyStr.

(** [s.split(sep)] for a one-character separator: never an empty list. *)
Fixpoint split (sep : ascii) (s : string) : list string :=
  match s with
  | EmptyString => [EmptyString]
  | String c rest =>
      if Ascii.eqb c sep then EmptyString :: split sep rest
      else match split sep rest with
           | [] => [String c EmptyString]
           | tok :: toks => String c tok :: toks
           end
  end.

(** [sub in s]. *)
Fixpoint contains (sub s : string) : bool :=
  String.prefix sub s ||
  match s with
  | EmptyString => false
  | String _ rest => contains sub rest
  end.

(** [s.startswith(p)] and [s.endswith(suffix)]. *)
Definition startswith (s p : string) : bool := String.prefix p s.

Fixpoint endswith (s suffix : string) : bool :=
  String.eqb s suffix ||
  match s with
  | EmptyString => false
  | String _ rest => endswith rest suffix
  end.

(** [s.rstrip("/")]. *)
Fixpoint rstrip_slash (s : string) : string :=
  match s with
  | EmptyString => EmptyString
  | String c rest =>
      match rstrip_slash rest with
      | EmptyString => if Ascii.eqb c "/" then EmptyString else String c EmptyString
      | r => String c r
      end
  end.

(** [s[len(p):]] when [s] starts with [p]. *)
Fixpoint strip_prefix (p s : string) : option string :=
  match p, s with
  | EmptyString, _ => Some s
  | String a p', String b s' => if Ascii.eqb a b then strip_prefix p' s' else None
  | String _ _, EmptyString => None
  end.

End PyStr.

(** ** [os.path] on POSIX *)

Module OsPath.

(** [os.path.join(a, b)]. *)
Definition join (a b : string) : string :=
  if PyStr.startswith b "/" then b
  else if String.eqb a "" || PyStr.endswith a "/" then a +:+ b
  else a +:+ "/" +:+ b.

(** [os.path.basename(p)]: what follows the last slash. *)
Definition basename (p : string) : string :=
  List.last (PyStr.split "/" p) EmptyString.

End OsPath.

(** ** Python values and exceptions *)

(** Keys a [KeyError] can carry here. *)
Inductive pykey :=
  | KStr (s : string)
  | KBool (b : bool)
  | KInt (i : Z).

(** The exception classes the source raises, catches or lets through.  An
    exception of a subclass is represented by the class that decides which
    [except] clause takes it. *)
Inductive exn :=
  | KeyError (k : pykey)
  | IndexError
  | TypeError
  | ValueError (msg : string)
  | HTTPError (status_code : Z)
  | OSError (msg : string)
  | OtherError (name : string).

Inductive result (A : Type) :=
  | Ok (a : A)
  | Raise (e : exn).
Arguments Ok {A} a.
Arguments Raise {A} e.

(** What [Response.json()] can return. *)
#[warnings="-register-all"]
Inductive pyval :=
  | PNone
  | PBool (b : bool)
  | PInt (i : Z)
  | PFloat (repr : string)
  | PStr (s : string)
  | PList (items : list pyval)
  | PDict (items : list (string * pyval)).

Module PyVal.

(** Lookup in the items of a dict (its keys are pairwise different). *)
Fixpoint dict_get (items : list (string * pyval)) (k : string) : option pyval :=
  match items with
  | [] => None
  | (k', v) :: rest => if String.eqb k' k then Some v else dict_get rest k
  end.

(** [seq[i]] for a sequence of length [len]: the position read, counting
    from the end when [i] is negative. *)
Definition index (len : nat) (i : Z) : option nat :=
  let n := Z.of_nat len in
  if (0 <=? i) && (i <? n) then Some (Z.to_nat i)
  else if (i <? 0) && (0 <=? n + i) then Some (Z.to_nat (n + i))
  else None.

(** [v[k]] with a string key. *)
Definition getitem_str (v : pyval) (k : string) : result pyval :=
  match v with
  | PDict items =>
      match dict_get items k with
      | Some x => Ok x
      | None => Raise (KeyError (KStr k))
      end
  | _ => Raise TypeError
  end.

(** [v[i]] with an integer. *)
Definition getitem_int (v : pyval) (i : Z) : result pyval :=
  match v with
  | PDict _ => Raise (KeyError (KInt i))
  | PList items =>
      match index (List.length items) i with
      | Some n =>
          match items !! n with
          | Some x => Ok x
          | None => Raise IndexError
          end
      | None => Raise IndexError
      end
  | PStr s =>
      match index (String.length s) i with
      | Some n =>
          match String.get n s with
          | Some c => Ok (PStr (String c EmptyString))
          | None => Raise IndexError
          end
      | None => Raise IndexError
      end
  | _ => Raise TypeError
  end.

End PyVal.

(** ** The outside world *)

(** The [content-length] header of a response, kept as what [int] makes of
    its text: no header, the text of an integer, or a text [int] rejects. *)
Inductive content_length :=
  | HeaderAbsent
  | HeaderInt (n : Z)
  | HeaderNotInt.

(** A [requests.Response], as far as the source looks at it: the header,
    the chunks [iter_content] yields, the exception that ends the stream
    early (if any), and what [json()] returns or raises. *)
Record response := {
  resp_content_length : content_length;
  resp_chunks : list string;
  resp_abort : option exn;
  resp_json : result pyval
}.

Inductive get_outcome :=
  | GetRaises (e : exn)
  | GetReturns (r : response).

(** A [tarfile.TarInfo]: a regular file with its data, or a directory. *)
Record tarinfo := {
  ti_name : string;
  ti_isdir : bool;
  ti_data : string
}.

(** The handle [qiime2.Artifact.import_data] returns. *)
Inductive artifact :=
  | Artifact (uuid : nat).

(** The collaborators: the network ([env_get n url] is the outcome of the
    [n]-th call of [requests.get]), [tempfile] (the name of the [n]-th
    temporary directory), [tarfile] (the members of a gzip-compressed tar
    file, or the error reading it) and QIIME 2 (the outcome of the [n]-th
    call of [import_data]). *)
Record env := {
  env_get : nat -> pyval -> get_outcome;
  env_mkdtemp : nat -> string;
  env_untar : string -> result (list tarinfo);
  env_import : nat -> string -> string -> string -> result artifact
}.

(** The lines the source prints. *)
Inductive message :=
  | MsgUnknownDOI (key : pykey)
  | MsgRequestFailed (status_code : Z) (retry : Z)
  | MsgIncomplete (retry : Z)
  | MsgTemporaryDirectory (name : string).

(** The effects, in the order they happen.  [EvSleep] is [time.sleep],
    which the source never calls. *)
Inductive event :=
  | EvPrint (m : message)
  | EvGet (url : pyval)
  | EvOpenW (path : string)
  | EvWrite (path : string) (chunk : string)
  | EvMkdtemp (name : string)
  | EvRmtree (name : string)
  | EvExtract (target : string)
  | EvListdir (root : string) (dirs files : list string)
  | EvImport (semantic_type path view_type : string) (outcome : result artifact)
  | EvSleep (seconds : Z).

(** The file system (files and directories by path; paths are compared as
    strings), the trace, and how often each collaborator was called. *)
Record state := {
  st_files : gmap string string;
  st_dirs : gset string;
  st_trace : list event;
  st_gets : nat;
  st_tmps : nat;
  st_imports : nat
}.

(** ** The monad *)

Definition M (A : Type) : Type := env -> state -> result A * state.

Definition ret {A} (a : A) : M A := fun _ s => (Ok a, s).

Definition raise {A} (e : exn) : M A := fun _ s => (Raise e, s).

Definition bind {A B} (m : M A) (k : A -> M B) : M B :=
  fun E s =>
    match m E s with
    | (Ok a, s') => k a E s'
    | (Raise e, s') => (Raise e, s')
    end.

(** [try: body except ...: handler]; the handler re-raises what no clause
    takes. *)
Definition try_except {A} (body : M A) (handler : exn -> M A) : M A :=
  fun E s =>
    match body E s with
    | (Ok a, s') => (Ok a, s')
    | (Raise e, s') => handler e E s'
    end.

(** [try: body finally: cleanup], as a [with] block runs its exit. *)
Definition finally {A} (body : M A) (cleanup : M unit) : M A :=
  fun E s =>
    match body E s with
    | (r, s') =>
        match cleanup E s' with
        | (Ok _, s'') => (r, s'')
        | (Raise e, s'') => (Raise e, s'')
        end
    end.

Definition lift {A} (r : result A) : M A := fun _ s => (r, s).

Notation "'let!' x ':=' m 'in' k" := (bind m (fun x => k))
  (at level 10, x name, m at level 200, k at level 200).
Notation "'let!' ' p ':=' m 'in' k" := (bind m (fun x => match x with p => k end))
  (at level 10, p pattern, m at level 200, k at level 200).
Notation "'do!' m 'in' k" := (bind m (fun _ => k))
  (at level 10, m at level 200, k at level 200).

Definition ask : M env := fun E s => (Ok E, s).

Definition get_state : M state := fun _ s => (Ok s, s).

Definition modify (f : state -> state) : M unit := fun _ s => (Ok tt, f s).

Definition log (e : event) (s : state) : state :=
  {| st_files := st_files s; st_dirs := st_dirs s;
     st_trace := st_trace s ++ [e];
     st_gets := st_gets s; st_tmps := st_tmps s; st_imports := st_imports s |}.

Definition set_files (f : gmap string string) (s : state) : state :=
  {| st_files := f; st_dirs := st_dirs s; st_trace := st_trace s;
     st_gets := st_gets s; st_tmps := st_tmps s; st_imports := st_imports s |}.

Definition set_dirs (d : gset string) (s : state) : state :=
  {| st_files := st_files s; st_dirs := d; st_trace := st_trace s;
     st_gets := st_gets s; st_tmps := st_tmps s; st_imports := st_imports s |}.

Definition emit (e : event) : M unit := modify (log e).

(** [print(...)]. *)
Definition print (m : message) : M unit := emit (EvPrint m).

(** ** The collaborators' calls *)

(** [requests.get(url)]: the next answer of the network. *)
Definition requests_get (url : pyval) : M response :=
  fun E s =>
    let s' := log (EvGet url)
                {| st_files := st_files s; st_dirs := st_dirs s;
                   st_trace := st_trace s; st_gets := S (st_gets s);
                   st_tmps := st_tmps s; st_imports := st_imports s |} in
    match env_get E (st_gets s) url with
    | GetRaises e => (Raise e, s')
    | GetReturns r => (Ok r, s')
    end.

(** [open(path, "wb")]: the file is created or truncated.  Opening is
    taken to succeed, as it does in the directory [get_unite_data] has just
    created. *)
Definition open_wb (path : string) : M unit :=
  do! emit (EvOpenW path) in
  modify (fun s => set_files (<[path := ""]> (st_files s)) s).

(** [f.write(chunk)] on the file opened at [path]. *)
Definition file_write (path chunk : string) : M unit :=
  do! emit (EvWrite path chunk) in
  modify (fun s =>
    set_files (<[path := default "" (st_files s !! path) +:+ chunk]> (st_files s)) s).

(** Paths at or below the directory [d]. *)
Definition inside (d p : string) : bool :=
  String.eqb p d || String.prefix (OsPath.join d "") p.

(** [tempfile.TemporaryDirectory()] entered and left. *)
Definition mkdtemp : M string :=
  fun E s =>
    let d := env_mkdtemp E (st_tmps s) in
    (Ok d, log (EvMkdtemp d)
             {| st_files := st_files s; st_dirs := {[d]} ∪ st_dirs s;
                st_trace := st_trace s; st_gets := st_gets s;
                st_tmps := S (st_tmps s); st_imports := st_imports s |}).

Definition rmtree (d : string) : M unit :=
  do! emit (EvRmtree d) in
  modify (fun s =>
    set_dirs (filter (fun p => inside d p = false) (st_dirs s))
      (set_files (filter (fun kv : string * string => inside d kv.1 = false)
                    (st_files s)) s)).

(** [with tempfile.TemporaryDirectory() as tmpdirname: body]. *)
Definition with_TemporaryDirectory {A} (body : string -> M A) : M A :=
  let! tmpdirname := mkdtemp in
  finally (body tmpdirname) (rmtree tmpdirname).

(** [tarfile.open(name, "r:gz")] followed by [getmembers()]. *)
Definition tarfile_getmembers (name : option string) : M (list tarinfo) :=
  match name with
  | None => raise (ValueError "nothing to open")
  | Some path =>
      if String.eqb path "" then raise (ValueError "nothing to open")
      else
        let! E := ask in
        let! s := get_state in
        match st_files s !! path with
        | Some data => lift (env_untar E data)
        | None => raise (OSError "cannot open the file")
        end
  end.

(** [tar.extract(member, path=tmpdirname)] once [member.name] is [name].
    A file replaces a file of the same name and fails on a directory; a
    directory is created unless the name is taken. *)
Definition tar_extract (tmpdirname name : string) (member : tarinfo) : M unit :=
  let target := PyStr.rstrip_slash (OsPath.join tmpdirname name) in
  do! emit (EvExtract target) in
  let! s := get_state in
  if ti_isdir member then
    if bool_decide (target ∈ st_dirs s) || bool_decide (is_Some (st_files s !! target))
    then ret tt
    else modify (fun s => set_dirs ({[target]} ∪ st_dirs s) s)
  else
    if bool_decide (target ∈ st_dirs s) then raise (OSError "Is a directory")
    else modify (fun s => set_files (<[target := ti_data member]> (st_files s)) s).

(** The name of [p] in the directory [d], when [p] is directly in it. *)
Definition child_name (d p : string) : option string :=
  match PyStr.strip_prefix (OsPath.join d "") p with
  | Some n => if String.eqb n "" || PyStr.contains "/" n then None else Some n
  | None => None
  end.

(** One step of [os.walk]: the directories and the files of [root]. *)
Definition scandir (root : string) : M (list string * list string) :=
  let! s := get_state in
  let dirs := omap (child_name root) (elements (st_dirs s)) in
  let files := omap (child_name root) (map fst (map_to_list (st_files s))) in
  do! emit (EvListdir root dirs files) in
  ret (dirs, files).

(** [qiime2.Artifact.import_data(semantic_type, path, view_type)]. *)
Definition import_data (semantic_type path view_type : string) : M artifact :=
  fun E s =>
    let r := env_import E (st_imports s) semantic_type path view_type in
    (r, log (EvImport semantic_type path view_type r)
          {| st_files := st_files s; st_dirs := st_dirs s;
             st_trace := st_trace s; st_gets := st_gets s;
             st_tmps := st_tmps s; st_imports := S (st_imports s) |}).

(** ** [_unite_get_doi] *)

(** The table [unite_dois] (a local of the function). *)
Definition unite_dois : gmap string (gmap string (gmap bool string)) :=
  {[ "9.0" := {[ "fungi" := {[ false := "10.15156/BIO/2938079";
                               true := "10.15156/BIO/2938080" ]};
                 "eukaryotes" := {[ false := "10.15156/BIO/2938081";
                                    true := "10.15156/BIO/2938082" ]} ]};
     "8.3" := {[ "fungi" := {[ false := "10.15156/BIO/1264708";
                               true := "10.15156/BIO/1264763" ]};
                 "eukaryotes" := {[ false := "10.15156/BIO/1264819";
                                    true := "10.15156/BIO/1264861" ]} ]};
     "8.2" := {[ "fungi" := {[ false := "10.15156/BIO/786385";
                               true := "10.15156/BIO/786387" ]};
                 "eukaryotes" := {[ false := "10.15156/BIO/786386";
                                    true := "10.15156/BIO/786388" ]} ]} ]}.

(** [d[k]] on a dict: the value, or [KeyError(k)]. *)
Definition dict_getitem {K V} `{Countable K} (key : K -> pykey)
    (d : gmap K V) (k : K) : result V :=
  match d !! k with
  | Some v => Ok v
  | None => Raise (KeyError (key k))
  end.

(** [unite_dois[version][taxon_group][singletons]]. *)
Definition unite_dois_lookup (version taxon_group : string) (singletons : bool)
    : result string :=
  match dict_getitem KStr unite_dois version with
  | Raise e => Raise e
  | Ok by_group =>
      match dict_getitem KStr by_group taxon_group with
      | Raise e => Raise e
      | Ok by_singletons => dict_getitem KBool by_singletons singletons
      end
  end.

Definition _unite_get_doi (version taxon_group : string) (singletons : bool) : M string :=
  let! doi :=
    try_except (lift (unite_dois_lookup version taxon_group singletons))
      (fun e =>
         match e with
         | KeyError ke => do! print (MsgUnknownDOI ke) in raise e
         | _ => raise e
         end) in
  ret doi.

(** ** [_unite_get_url] *)

Definition base_url : string :=
  "https://api.plutof.ut.ee/v1/public/dois/" +:+ "?format=vnd.api%2Bjson&identifier=".

Definition _unite_get_url (doi : string) : M pyval :=
  let! response := requests_get (PStr (base_url +:+ doi)) in
  let! query_data := lift (resp_json response) in
  let! data := lift (PyVal.getitem_str query_data "data") in
  let! first := lift (PyVal.getitem_int data 0) in
  let! attributes := lift (PyVal.getitem_str first "attributes") in
  let! media := lift (PyVal.getitem_str attributes "media") in
  let! newest := lift (PyVal.getitem_int media (-1)) in
  let! URL := lift (PyVal.getitem_str newest "url") in
  ret URL.

(** ** [_unite_get_tgz] *)

(** [range(n)]. *)
Definition py_range (n : Z) : list Z := map Z.of_nat (seq 0 (Z.to_nat n)).

(** [int(response.headers.get("content-length", 0))]. *)
Definition int_content_length (h : content_length) : result Z :=
  match h with
  | HeaderAbsent => Ok 0
  | HeaderInt n => Ok n
  | HeaderNotInt => Raise (ValueError "invalid literal for int()")
  end.

(** [for chunk in response.iter_content(chunk_size=8192): ...], the chunks
    already received from the stream. *)
Fixpoint write_chunks (path : string) (chunks : list string) (file_size : Z) : M Z :=
  match chunks with
  | [] => ret file_size
  | chunk :: rest =>
      if String.eqb chunk "" then write_chunks path rest file_size
      else
        do! file_write path chunk in
        write_chunks path rest (file_size + Z.of_nat (String.length chunk))
  end.

(** The body of the [try] of one pass of the loop. *)
Definition download_attempt (url : pyval) (download_path : string) : M string :=
  let file_size := 0 in
  let! response := requests_get url in
  let unite_file_path := OsPath.join download_path "unitefile.tar.gz" in
  do! open_wb unite_file_path in
  let! file_size := write_chunks unite_file_path (resp_chunks response) file_size in
  do! match resp_abort response with
      | Some e => raise e
      | None => ret tt
      end in
  let! expected := lift (int_content_length (resp_content_length response)) in
  if file_size =? expected then ret unite_file_path
  else raise (ValueError "File download incomplete").

(** One pass: [Some path] is the [return] out of the loop, [None] the end
    of an [except] clause, after which the loop goes on. *)
Definition download_pass (url : pyval) (download_path : string) (retry : Z)
    : M (option string) :=
  try_except
    (let! unite_file_path := download_attempt url download_path in
     ret (Some unite_file_path))
    (fun e =>
       match e with
       | HTTPError status_code =>
           do! print (MsgRequestFailed status_code retry) in ret None
       | ValueError _ =>
           do! print (MsgIncomplete retry) in ret None
       | _ => raise e
       end).

Fixpoint download_loop (url : pyval) (download_path : string) (tries : list Z)
    : M (option string) :=
  match tries with
  | [] => ret None
  | retry :: rest =>
      let! done := download_pass url download_path retry in
      match done with
      | Some unite_file_path => ret (Some unite_file_path)
      | None => download_loop url download_path rest
      end
  end.

Definition _unite_get_tgz (url : pyval) (download_path : string) (retries : Z)
    : M (option string) :=
  download_loop url download_path (py_range retries).

(** The default of the parameter [retries]. *)
Definition retries_default : Z := 10.

(** ** [_unite_get_artifacts] *)

(** [[m for m in tar.getmembers() if "_dev" in m.name]]. *)
Definition dev_members (members : list tarinfo) : list tarinfo :=
  List.filter (fun m => PyStr.contains "_dev" (ti_name m)) members.

(** [for member in members: member.name = basename; tar.extract(...)]. *)
Fixpoint extract_members (tmpdirname : string) (members : list tarinfo) : M unit :=
  match members with
  | [] => ret tt
  | member :: rest =>
      let name := OsPath.basename (ti_name member) in
      do! tar_extract tmpdirname name member in
      extract_members tmpdirname rest
  end.

(** [f.split("_")[4]]. *)
Definition cluster_token (f : string) : result string :=
  match PyStr.split "_" f !! 4%nat with
  | Some tok => Ok tok
  | None => Raise IndexError
  end.

(** [[f for f in files if f.split("_")[4] == cluster_id]]. *)
Fixpoint filter_cluster (cluster_id : string) (files : list string)
    : result (list string) :=
  match files with
  | [] => Ok []
  | f :: rest =>
      match cluster_token f with
      | Raise e => Raise e
      | Ok tok =>
          match filter_cluster cluster_id rest with
          | Raise e => Raise e
          | Ok kept => Ok (if String.eqb tok cluster_id then f :: kept else kept)
          end
      end
  end.

(** The two lists the function fills, [tax_results] and [seq_results]. *)
Definition results : Type := list artifact * list artifact.

(** [for file in filtered_files: ...]. *)
Fixpoint import_files (root : string) (filtered_files : list string) (acc : results)
    : M results :=
  match filtered_files with
  | [] => ret acc
  | file :: rest =>
      let fp := OsPath.join root file in
      if PyStr.endswith file ".txt" then
        let! a := import_data "FeatureData[Taxonomy]" fp "HeaderlessTSVTaxonomyFormat" in
        import_files root rest ((acc.1 ++ [a])%list, acc.2)
      else if PyStr.endswith file ".fasta" then
        let! a := import_data "FeatureData[Sequence]" fp "MixedCaseDNAFASTAFormat" in
        import_files root rest (acc.1, (acc.2 ++ [a])%list)
      else import_files root rest acc
  end.

(** The body of the loop over [os.walk]. *)
Definition classify_directory (cluster_id root : string) (files : list string)
    (acc : results) : M results :=
  let! filtered_files := lift (filter_cluster cluster_id files) in
  match filtered_files with
  | [] => raise (ValueError ("No files found with cluster_id = " +:+ cluster_id))
  | _ => import_files root filtered_files acc
  end.

(** [for x in xs: acc = body x acc]. *)
Fixpoint for_each {A B} (xs : list B) (body : B -> A -> M A) (acc : A) : M A :=
  match xs with
  | [] => ret acc
  | x :: rest =>
      let! acc := body x acc in
      for_each rest body acc
  end.

(** [for root, dirs, files in os.walk(top): acc = body root dirs files acc],
    top-down: a directory, then each of its subdirectories in turn; a [top]
    that is no directory yields nothing.  The fuel bounds the depth;
    [walk_fuel] is enough of it for any directory of the state. *)
Fixpoint os_walk_for {A} (fuel : nat) (top : string)
    (body : string -> list string -> list string -> A -> M A) (acc : A) : M A :=
  match fuel with
  | O => ret acc
  | S fuel' =>
      let! s := get_state in
      if bool_decide (top ∈ st_dirs s) then
        let! '(dirs, files) := scandir top in
        let! acc := body top dirs files acc in
        for_each dirs
          (fun name acc => os_walk_for fuel' (OsPath.join top name) body acc) acc
      else ret acc
  end.

Definition walk_fuel (s : state) : nat :=
  S (max_list (map String.length (elements (st_dirs s)))).

Definition _unite_get_artifacts (tgz_file : option string) (cluster_id : string)
    : M results :=
  let tax_results := [] in
  let seq_results := [] in
  let! '(tax_results, seq_results) :=
    with_TemporaryDirectory (fun tmpdirname =>
      do! print (MsgTemporaryDirectory tmpdirname) in
      let! tar := tarfile_getmembers tgz_file in
      let members := dev_members tar in
      do! match members with
          | [] => raise (ValueError "No '_dev' files found")
          | _ => extract_members tmpdirname members
          end in
      let! s := get_state in
      os_walk_for (walk_fuel s) tmpdirname
        (fun root dirs files acc => classify_directory cluster_id root files acc)
        (tax_results, seq_results)) in
  ret (tax_results, seq_results).

(** ** [get_unite_data] *)

Definition get_unite_data (version taxon_group cluster_id : string) (singletons : bool)
    : M results :=
  let! doi := _unite_get_doi version taxon_group singletons in
  let! url := _unite_get_url doi in
  with_TemporaryDirectory (fun tmpdirname =>
    do! print (MsgTemporaryDirectory tmpdirname) in
    let! tar_file_path := _unite_get_tgz url tmpdirname retries_default in
    _unite_get_artifacts tar_file_path cluster_id).

(** The defaults of [cluster_id] and [singletons]. *)
Definition cluster_id_default : string := "99".
Definition singletons_default : bool := false.

(** * Properties *)

Local Open Scope list_scope.

(** ** Reading a trace *)

(** What a run from [s] to [s'] added to the trace. *)
Definition events_since (s s' : state) : list event :=
  drop (List.length (st_trace s)) (st_trace s').

Definition printed (tr : list event) : list message :=
  omap (fun e => match e with EvPrint m => Some m | _ => None end) tr.

Definition requested (tr : list event) : list pyval :=
  omap (fun e => match e with EvGet url => Some url | _ => None end) tr.

(** The triples of the table, with the DOI each one stands for. *)
Definition in_table (version taxon_group : string) (singletons : bool) (doi : string)
    : Prop :=
  exists by_group by_singletons,
    unite_dois !! version = Some by_group /\
    by_group !! taxon_group = Some by_singletons /\
    by_singletons !! singletons = Some doi.

(** The bytes a response delivers, and how many they are. *)
Definition body (r : response) : string := foldr String.append "" (resp_chunks r).

Definition received (r : response) : Z := Z.of_nat (String.length (body r)).

(** The events of a download: requests, writes to the file, printed lines. *)
Definition download_event (e : event) : Prop :=
  match e with
  | EvGet _ | EvOpenW _ | EvWrite _ _ | EvPrint _ => True
  | _ => False
  end.


(** The files [os.walk] found, each with the directory it was found in. *)
Definition listed (tr : list event) : list (string * string) :=
  flat_map (fun e => match e with
                     | EvListdir root _ files => map (pair root) files
                     | _ => []
                     end) tr.

(** The files imported under a semantic type, each with the artifact the
    import returned. *)
Definition imported (semantic_type : string) (tr : list event)
    : list (string * artifact) :=
  omap (fun e => match e with
                 | EvImport ty path _ (Ok a) =>
                     if String.eqb ty semantic_type then Some (path, a) else None
                 | _ => None
                 end) tr.

(** The fifth token of the name is the cluster identifier, and the name has
    the extension of a taxonomy file, or of a sequence file. *)
Definition taxonomy_file (cluster_id f : string) : bool :=
  match cluster_token f with
  | Ok tok => String.eqb tok cluster_id
  | Raise _ => false
  end && PyStr.endswith f ".txt".

Definition sequence_file (cluster_id f : string) : bool :=
  match cluster_token f with
  | Ok tok => String.eqb tok cluster_id
  | Raise _ => false
  end && PyStr.endswith f ".fasta".

Definition file_path (rf : string * string) : string := OsPath.join rf.1 rf.2.

(** From [acc] to [acc'], the run with trace [tr] appended to the first
    list the artifact of every listed taxonomy file of the cluster and to the
    second that of every listed sequence file, and imported nothing else. *)
Definition populated (cluster_id : string) (acc acc' : results) (tr : list event)
    : Prop :=
  map fst (imported "FeatureData[Taxonomy]" tr)
    = map file_path (List.filter (fun rf => taxonomy_file cluster_id rf.2) (listed tr)) /\
  acc'.1 = acc.1 ++ map snd (imported "FeatureData[Taxonomy]" tr) /\
  map fst (imported "FeatureData[Sequence]" tr)
    = map file_path (List.filter (fun rf => sequence_file cluster_id rf.2) (listed tr)) /\
  acc'.2 = acc.2 ++ map snd (imported "FeatureData[Sequence]" tr).


(** A name as a directory listing gives it: not empty, no slash. *)
Definition plain_name (n : string) : Prop :=
  n <> "" /\ PyStr.contains "/" n = false.

(** The events of the walk over the workspace. *)
Definition walk_event (e : event) : Prop :=
  match e with
  | EvListdir _ dirs files => Forall plain_name dirs /\ Forall plain_name files
  | EvImport _ _ _ _ => True
  | _ => False
  end.

(** The events of a temporary directory. *)
Definition tmp_events (tr : list event) : list event :=
  List.filter (fun e => match e with
                        | EvMkdtemp _ | EvRmtree _ => true
                        | _ => false
                        end) tr.

(** A computation that extends the trace by events that satisfy [P] and,
    when it returns [a], by a trace [Q a] holds of. *)
Definition emits {A} (m : M A) (P : event -> Prop) (Q : A -> list event -> Prop)
    : Prop :=
  forall E s, exists tr,
    st_trace (m E s).2 = st_trace s ++ tr /\
    Forall P tr /\
    forall a, (m E s).1 = Ok a -> Q a tr.

(** The events of [_unite_get_artifacts] inside its temporary directory. *)
Definition workspace_event (e : event) : Prop :=
  match e with
  | EvPrint _ | EvExtract _ => True
  | _ => walk_event e
  end.

(** Nothing is left at or below the directory [d]. *)
Definition removed (d : string) (s : state) : Prop :=
  forall p, inside d p = true -> st_files s !! p = None /\ p ∉ st_dirs s.

(** A trace that lists no file and imports none. *)
Definition silent (tr : list event) : Prop :=
  listed tr = [] /\ forall semantic_type, imported semantic_type tr = [].


(** ** Worlds for the examples *)

(** A regular file and a directory of an archive. *)
Definition member_file (name : string) : tarinfo :=
  {| ti_name := name; ti_isdir := false; ti_data := "data" |}.

Definition member_dir (name : string) : tarinfo :=
  {| ti_name := name; ti_isdir := true; ti_data := "" |}.

(** A world whose network answers every request by [answer] and whose
    archives all hold [members]; temporary directories are numbered and
    every import succeeds. *)
Definition example_env (answer : nat -> get_outcome) (members : list tarinfo) : env :=
  {| env_get := fun n _ => answer n;
     env_mkdtemp := fun n => match n with
                             | O => "/tmp/tmp0"
                             | _ => "/tmp/tmp1"
                             end;
     env_untar := fun _ => Ok members;
     env_import := fun n _ _ _ => Ok (Artifact n) |}.

(** A state with one downloaded archive and nothing else. *)
Definition example_state : state :=
  {| st_files := {[ "/data/unite.tgz" := "archive" ]}; st_dirs := ∅;
     st_trace := []; st_gets := 0; st_tmps := 0; st_imports := 0 |}.

Definition no_network (n : nat) : get_outcome :=
  GetRaises (OtherError "ConnectionError").

(** What importing the files of one directory adds to the two lists. *)
Definition imports_of (root : string) (files : list string) (acc acc' : results)
    (tr : list event) : Prop :=
  listed tr = [] /\
  map fst (imported "FeatureData[Taxonomy]" tr)
    = map (OsPath.join root) (List.filter (fun f => PyStr.endswith f ".txt") files) /\
  acc'.1 = acc.1 ++ map snd (imported "FeatureData[Taxonomy]" tr) /\
  map fst (imported "FeatureData[Sequence]" tr)
    = map (OsPath.join root) (List.filter (fun f => PyStr.endswith f ".fasta") files) /\
  acc'.2 = acc.2 ++ map snd (imported "FeatureData[Sequence]" tr).

(** Closes the trace part of [emits] for a computation without events. *)
Ltac emits_nothing :=
  exists []; simpl; rewrite ?app_nil_r; split; [done|split; [constructor|]].

(** ** Further properties: what they speak of *)

(** The versions and the taxon groups of the table. *)
Definition known_versions : list string := ["9.0"; "8.3"; "8.2"].

Definition known_groups : list string := ["fungi"; "eukaryotes"].

(** The line the [except] clause that takes an exception prints for the
    attempt of a given number; [None] for an exception no clause takes. *)
Definition handled (e : exn) : option (Z -> message) :=
  match e with
  | HTTPError status_code => Some (MsgRequestFailed status_code)
  | ValueError _ => Some MsgIncomplete
  | _ => None
  end.

(** The exception that ends the [try] block of an attempt, by the answer
    of the network; [None] when the block reaches its [return]. *)
Definition attempt_exception (o : get_outcome) : option exn :=
  match o with
  | GetRaises e => Some e
  | GetReturns r =>
      match resp_abort r with
      | Some e => Some e
      | None =>
          match int_content_length (resp_content_length r) with
          | Raise e => Some e
          | Ok n =>
              if received r =? n then None
              else Some (ValueError "File download incomplete")
          end
      end
  end.

(** The line printed for an attempt the loop goes on after. *)
Definition retry_line (o : get_outcome) : option (Z -> message) :=
  match attempt_exception o with
  | Some e => handled e
  | None => None
  end.

(** The body of the [with] block of [_unite_get_artifacts]. *)
Definition artifacts_body (tgz_file : option string) (cluster_id tmpdirname : string)
    : M results :=
  do! print (MsgTemporaryDirectory tmpdirname) in
  let! tar := tarfile_getmembers tgz_file in
  let members := dev_members tar in
  do! match members with
      | [] => raise (ValueError "No '_dev' files found")
      | _ => extract_members tmpdirname members
      end in
  let! s := get_state in
  os_walk_for (walk_fuel s) tmpdirname
    (fun root dirs files acc => classify_directory cluster_id root files acc)
    ([], []).

(** The targets of the extractions of a trace, and the target of a member:
    its base name, directly in the directory. *)
Definition extracted (tr : list event) : list string :=
  omap (fun e => match e with EvExtract target => Some target | _ => None end) tr.

Definition extract_target (tmpdirname : string) (member : tarinfo) : string :=
  PyStr.rstrip_slash (OsPath.join tmpdirname (OsPath.basename (ti_name member))).

(** An import as the source makes it: of a file whose fifth token is the
    cluster identifier, as a taxonomy in the headerless TSV format when the
    name ends in [.txt], else as sequences in the mixed-case FASTA format
    when it ends in [.fasta]. *)
Definition import_call_ok (cluster_id : string) (e : event) : Prop :=
  match e with
  | EvImport semantic_type path view_type _ =>
      exists root file,
        path = OsPath.join root file /\
        cluster_token file = Ok cluster_id /\
        ((semantic_type = "FeatureData[Taxonomy]" /\
          view_type = "HeaderlessTSVTaxonomyFormat" /\
          PyStr.endswith file ".txt" = true) \/
         (semantic_type = "FeatureData[Sequence]" /\
          view_type = "MixedCaseDNAFASTAFormat" /\
          PyStr.endswith file ".fasta" = true /\
          PyStr.endswith file ".txt" = false))
  | _ => True
  end.

(** A listing the loop over [os.walk] gets past: every name has a fifth
    token, and one of them has the cluster identifier there. *)
Definition listing_matched (cluster_id : string) (e : event) : Prop :=
  match e with
  | EvListdir _ _ files =>
      Forall (fun f => (5 <= List.length (PyStr.split "_" f))%nat) files /\
      Exists (fun f => cluster_token f = Ok cluster_id) files
  | _ => True
  end.


(** ** Lemmas on traces *)

Lemma events_since_app s s' tr :
  st_trace s' = (st_trace s ++ tr)%list -> events_since s s' = tr.
Proof. intros H. unfold events_since. rewrite H. apply drop_app_length. Qed.

Lemma events_since_log s e : events_since s (log e s) = [e].
Proof. by apply events_since_app. Qed.

Lemma bind_run {A B} (m : M A) (k : A -> M B) E s :
  bind m k E s
  = match m E s with
    | (Ok a, s') => k a E s'
    | (Raise e, s') => (Raise e, s')
    end.
Proof. reflexivity. Qed.

(** ** [_unite_get_doi] *)

Section Doi.

Variables (version taxon_group : string) (singletons : bool).

Lemma unite_get_doi_found doi E s :
  unite_dois_lookup version taxon_group singletons = Ok doi ->
  _unite_get_doi version taxon_group singletons E s = (Ok doi, s).
Proof.
  intros H. unfold _unite_get_doi, bind, try_except, lift. by rewrite H.
Qed.

Lemma unite_get_doi_missing key E s :
  unite_dois_lookup version taxon_group singletons = Raise (KeyError key) ->
  _unite_get_doi version taxon_group singletons E s
  = (Raise (KeyError key), log (EvPrint (MsgUnknownDOI key)) s).
Proof.
  intros H. unfold _unite_get_doi, bind, try_except, lift. by rewrite H.
Qed.

End Doi.

(** C7: for every triple present in the static table, [_unite_get_doi]
    returns exactly the string the table stores, printing nothing and
    leaving the state as it was; version "8.2", group "fungi", no singletons
    gives "10.15156/BIO/786385". *)
Theorem unite_get_doi_returns_table_entry :
  (forall version taxon_group singletons doi E s,
     in_table version taxon_group singletons doi ->
     _unite_get_doi version taxon_group singletons E s = (Ok doi, s)) /\
  (forall E s,
     _unite_get_doi "8.2" "fungi" false E s = (Ok "10.15156/BIO/786385", s)).
Proof.
  split.
  - intros version taxon_group singletons doi E s (by_group & by_singletons & Hv & Hg & Hs).
    apply unite_get_doi_found.
    unfold unite_dois_lookup, dict_getitem. by rewrite Hv, Hg, Hs.
  - intros E s. by apply unite_get_doi_found.
Qed.

Lemma unite_get_doi_returns_table_entry_witness :
  in_table "9.0" "eukaryotes" true "10.15156/BIO/2938082" /\
  forall E s, _unite_get_doi "9.0" "eukaryotes" true E s = (Ok "10.15156/BIO/2938082", s).
Proof.
  assert (in_table "9.0" "eukaryotes" true "10.15156/BIO/2938082") as Hin.
  { eexists _, _. repeat split; reflexivity. }
  split; [exact Hin|]. intros E s.
  exact (proj1 unite_get_doi_returns_table_entry _ _ _ _ E s Hin).
Defined.

(** C8: for every triple absent from the static table, [_unite_get_doi]
    raises [KeyError] carrying the first key that is not matched (the
    version, else the taxon group, else the singletons flag) and returns no
    value; all it does is print that key: no request is made, nothing is
    retried. *)
Theorem unite_get_doi_fails_on_absent_triple
    (version taxon_group : string) (singletons : bool) (E : env) (s : state) :
  (forall doi, ~ in_table version taxon_group singletons doi) ->
  exists key,
    _unite_get_doi version taxon_group singletons E s
      = (Raise (KeyError key), log (EvPrint (MsgUnknownDOI key)) s) /\
    events_since s (_unite_get_doi version taxon_group singletons E s).2
      = [EvPrint (MsgUnknownDOI key)] /\
    requested (events_since s (_unite_get_doi version taxon_group singletons E s).2) = [] /\
    (unite_dois !! version = None /\ key = KStr version \/
     (exists by_group,
        unite_dois !! version = Some by_group /\
        by_group !! taxon_group = None /\ key = KStr taxon_group) \/
     (exists by_group by_singletons,
        unite_dois !! version = Some by_group /\
        by_group !! taxon_group = Some by_singletons /\
        by_singletons !! singletons = None /\ key = KBool singletons)).
Proof.
  intros Habsent.
  assert (exists key,
    unite_dois_lookup version taxon_group singletons = Raise (KeyError key) /\
    (unite_dois !! version = None /\ key = KStr version \/
     (exists by_group,
        unite_dois !! version = Some by_group /\
        by_group !! taxon_group = None /\ key = KStr taxon_group) \/
     (exists by_group by_singletons,
        unite_dois !! version = Some by_group /\
        by_group !! taxon_group = Some by_singletons /\
        by_singletons !! singletons = None /\ key = KBool singletons)))
    as (key & Hlookup & Hkey).
  { unfold unite_dois_lookup, dict_getitem.
    destruct (unite_dois !! version) as [by_group|] eqn:Hv.
    - destruct (by_group !! taxon_group) as [by_singletons|] eqn:Hg.
      + destruct (by_singletons !! singletons) as [doi|] eqn:Hs.
        { destruct (Habsent doi). by exists by_group, by_singletons. }
        exists (KBool singletons). split; [done|].
        right; right. by exists by_group, by_singletons.
      + exists (KStr taxon_group). split; [done|]. right; left. by exists by_group.
    - exists (KStr version). split; [done|]. by left. }
  exists key. rewrite (unite_get_doi_missing _ _ _ _ E s Hlookup). simpl.
  rewrite events_since_log. done.
Qed.

Lemma unite_get_doi_fails_on_absent_triple_witness :
  (forall doi, ~ in_table "8.2" "bacteria" false doi) /\
  exists key,
    _unite_get_doi "8.2" "bacteria" false
      {| env_get := fun _ _ => GetRaises (OtherError "ConnectionError");
         env_mkdtemp := fun _ => "/tmp/tmp0";
         env_untar := fun _ => Ok [];
         env_import := fun n _ _ _ => Ok (Artifact n) |}
      {| st_files := ∅; st_dirs := ∅; st_trace := []; st_gets := 0;
         st_tmps := 0; st_imports := 0 |}
    = (Raise (KeyError key),
       {| st_files := ∅; st_dirs := ∅; st_trace := [EvPrint (MsgUnknownDOI key)];
          st_gets := 0; st_tmps := 0; st_imports := 0 |}).
Proof.
  assert (forall doi, ~ in_table "8.2" "bacteria" false doi) as Habsent.
  { intros doi (g & b & Hv & Hg & _). vm_compute in Hv. injection Hv as <-.
    discriminate Hg. }
  split; [exact Habsent|].
  destruct (unite_get_doi_fails_on_absent_triple "8.2" "bacteria" false
    {| env_get := fun _ _ => GetRaises (OtherError "ConnectionError");
       env_mkdtemp := fun _ => "/tmp/tmp0";
       env_untar := fun _ => Ok [];
       env_import := fun n _ _ _ => Ok (Artifact n) |}
    {| st_files := ∅; st_dirs := ∅; st_trace := []; st_gets := 0;
       st_tmps := 0; st_imports := 0 |} Habsent) as (key & Hrun & _).
  exists key. exact Hrun.
Defined.

(** ** [_unite_get_url] *)

Lemma index_last len : (0 < len)%nat -> PyVal.index len (-1) = Some (len - 1)%nat.
Proof.
  intros Hlen. unfold PyVal.index.
  replace (0 <=? -1) with false by reflexivity.
  replace (-1 <? 0) with true by reflexivity. simpl.
  destruct (0 <=? Z.of_nat len + -1) eqn:Hle; [|lia].
  f_equal. lia.
Qed.

Lemma getitem_last items x :
  last items = Some x -> PyVal.getitem_int (PList items) (-1) = Ok x.
Proof.
  intros Hlast. unfold PyVal.getitem_int.
  assert (0 < List.length items)%nat as Hlen.
  { destruct items; [discriminate|simpl; lia]. }
  rewrite (index_last _ Hlen).
  rewrite last_lookup in Hlast.
  replace (Init.Nat.pred (List.length items)) with (List.length items - 1)%nat in Hlast by lia.
  by rewrite Hlast.
Qed.

(** Whatever the service answers, [_unite_get_url] asks once. *)
Lemma unite_get_url_trace doi E s :
  st_trace (_unite_get_url doi E s).2 = st_trace s ++ [EvGet (PStr (base_url +:+ doi))] /\
  st_gets (_unite_get_url doi E s).2 = S (st_gets s).
Proof.
  unfold _unite_get_url, bind, requests_get, lift, ret.
  destruct (env_get E (st_gets s) (PStr (base_url +:+ doi))) as [e|r]; [done|].
  repeat match goal with
         | |- context [match ?r with Ok _ => _ | Raise _ => _ end] => destruct r
         end; done.
Qed.

(** C6: for every DOI and every well-formed answer of the metadata
    service (a JSON object whose [data] is a non-empty array, whose first
    element has [attributes] with a non-empty array [media]),
    [_unite_get_url] returns the [url] of the last element of [media];
    and whatever the answer, it makes one request, to the fixed endpoint
    followed by the DOI, and never asks again. *)
Theorem unite_get_url_returns_last_media_url :
  (forall doi E s r top first others attributes media newest url,
     env_get E (st_gets s) (PStr (base_url +:+ doi)) = GetReturns r ->
     resp_json r = Ok (PDict top) ->
     PyVal.dict_get top "data" = Some (PList (PDict first :: others)) ->
     PyVal.dict_get first "attributes" = Some (PDict attributes) ->
     PyVal.dict_get attributes "media" = Some (PList media) ->
     last media = Some (PDict newest) ->
     PyVal.dict_get newest "url" = Some url ->
     (_unite_get_url doi E s).1 = Ok url) /\
  (forall doi E s,
     events_since s (_unite_get_url doi E s).2 = [EvGet (PStr (base_url +:+ doi))] /\
     st_gets (_unite_get_url doi E s).2 = S (st_gets s)).
Proof.
  split.
  - intros doi E s r top first others attributes media newest url
      Hget Hjson Hdata Hattr Hmedia Hlast Hurl.
    unfold _unite_get_url, bind, requests_get, lift, ret.
    rewrite Hget, Hjson. simpl. rewrite Hdata. simpl. rewrite Hattr. simpl.
    rewrite Hmedia.
    rewrite (getitem_last _ _ Hlast). simpl. by rewrite Hurl.
  - intros doi E s. destruct (unite_get_url_trace doi E s) as [Htr Hgets].
    split; [by apply events_since_app|done].
Qed.

Lemma unite_get_url_returns_last_media_url_witness :
  let E := {| env_get := fun _ _ =>
                GetReturns {| resp_content_length := HeaderAbsent; resp_chunks := [];
                              resp_abort := None;
                              resp_json := Ok (PDict [("data", PList [PDict [("attributes",
                                PDict [("media", PList [PDict [("url", PStr "https://files/old.tgz")];
                                                        PDict [("url", PStr "https://files/new.tgz")]])])]])]) |};
              env_mkdtemp := fun _ => "/tmp/tmp0";
              env_untar := fun _ => Ok [];
              env_import := fun n _ _ _ => Ok (Artifact n) |} in
  let s := {| st_files := ∅; st_dirs := ∅; st_trace := []; st_gets := 0;
              st_tmps := 0; st_imports := 0 |} in
  (_unite_get_url "10.15156/BIO/786385" E s).1 = Ok (PStr "https://files/new.tgz") /\
  events_since s (_unite_get_url "10.15156/BIO/786385" E s).2
    = [EvGet (PStr (base_url +:+ "10.15156/BIO/786385"))].
Proof.
  intros E s. split.
  - exact (proj1 unite_get_url_returns_last_media_url "10.15156/BIO/786385" E s
             _ _ _ _ _ _ _ _ eq_refl eq_refl eq_refl eq_refl eq_refl eq_refl eq_refl).
  - exact (proj1 (proj2 unite_get_url_returns_last_media_url "10.15156/BIO/786385" E s)).
Defined.

(** ** Strings *)

Lemma app_cons c s t : String c s +:+ t = String c (s +:+ t).
Proof. reflexivity. Qed.

Lemma app_empty_l s : "" +:+ s = s.
Proof. reflexivity. Qed.

Lemma app_empty_r s : s +:+ "" = s.
Proof. induction s as [|c s IH]; [done|]. by rewrite app_cons, IH. Qed.

Lemma app_assoc_str s t u : (s +:+ t) +:+ u = s +:+ (t +:+ u).
Proof. induction s as [|c s IH]; [done|]. by rewrite !app_cons, IH. Qed.

Lemma app_length_str s t :
  String.length (s +:+ t) = (String.length s + String.length t)%nat.
Proof. induction s as [|c s IH]; [done|]. rewrite app_cons. simpl. by rewrite IH. Qed.

(** ** [_unite_get_tgz] *)

Section Download.

Variables (url : pyval) (download_path : string).

Local Abbreviation path := (OsPath.join download_path "unitefile.tar.gz").

Lemma write_chunks_run chunks : forall n E s c0,
  st_files s !! path = Some c0 ->
  exists tr,
    write_chunks path chunks n E s
    = (Ok (n + Z.of_nat (String.length (foldr String.append "" chunks))),
       {| st_files := <[path := c0 +:+ foldr String.append "" chunks]> (st_files s);
          st_dirs := st_dirs s; st_trace := st_trace s ++ tr;
          st_gets := st_gets s; st_tmps := st_tmps s;
          st_imports := st_imports s |}) /\
    Forall (fun e => exists chunk, e = EvWrite path chunk) tr.
Proof.
  induction chunks as [|chunk rest IH]; intros n E s c0 Hc0.
  - exists []. split; [|constructor]. simpl. unfold ret.
    rewrite app_empty_r, app_nil_r, Z.add_0_r, (insert_id _ _ _ Hc0).
    by destruct s.
  - simpl. destruct (String.eqb_spec chunk "") as [->|Hne].
    + destruct (IH n E s c0 Hc0) as (tr & Hrun & Htr). exists tr.
      split; [|done]. by rewrite Hrun.
    + unfold bind at 1, file_write, bind, emit, modify. simpl.
      rewrite Hc0. simpl.
      match goal with |- context [write_chunks path rest ?n' E ?s'] =>
        destruct (IH n' E s' (c0 +:+ chunk)) as (tr & Hrun & Htr)
      end.
      { simpl. apply lookup_insert_eq. }
      exists (EvWrite path chunk :: tr). split; [|constructor; eauto].
      rewrite Hrun. simpl. f_equal.
      * f_equal. rewrite app_length_str. lia.
      * rewrite insert_insert_eq, app_assoc_str, <- app_assoc. done.
Qed.

(** What one pass of the loop does, by the answer of the network. *)
Lemma download_pass_run retry E s :
  exists tr,
    st_trace (download_pass url download_path retry E s).2
      = (st_trace s ++ EvGet url :: tr)%list /\
    Forall download_event tr /\
    requested tr = [] /\
    st_gets (download_pass url download_path retry E s).2 = S (st_gets s) /\
    match env_get E (st_gets s) url with
    | GetRaises (HTTPError status_code) =>
        (download_pass url download_path retry E s).1 = Ok None /\
        tr = [EvPrint (MsgRequestFailed status_code retry)]
    | GetRaises (ValueError _) =>
        (download_pass url download_path retry E s).1 = Ok None /\
        tr = [EvPrint (MsgIncomplete retry)]
    | GetRaises e => (download_pass url download_path retry E s).1 = Raise e
    | GetReturns r =>
        st_files (download_pass url download_path retry E s).2 !! path
          = Some (body r) /\
        match resp_abort r with
        | Some _ =>
            forall p, (download_pass url download_path retry E s).1 <> Ok (Some p)
        | None =>
            match int_content_length (resp_content_length r) with
            | Ok n =>
                if received r =? n
                then (download_pass url download_path retry E s).1 = Ok (Some path) /\
                     printed tr = []
                else (download_pass url download_path retry E s).1 = Ok None /\
                     printed tr = [MsgIncomplete retry]
            | Raise _ =>
                (download_pass url download_path retry E s).1 = Ok None /\
                printed tr = [MsgIncomplete retry]
            end
        end
    end.
Proof.
  unfold download_pass, try_except, download_attempt, bind, requests_get,
    open_wb, emit, modify, lift, ret, raise.
  destruct (env_get E (st_gets s) url) as [e|r] eqn:Hget.
  - destruct e; simpl; eexists;
      (split; [rewrite <- ?app_assoc; simpl; reflexivity|]);
      repeat split; repeat constructor.
  - cbn beta iota. simpl.
    match goal with |- context [write_chunks path _ 0 E ?s'] => set (s1 := s') end.
    destruct (write_chunks_run (resp_chunks r) 0 E s1 "") as (tr & Hrun & Htr).
    { subst s1. simpl. apply lookup_insert_eq. }
    rewrite Hrun. clear Hrun. subst s1. simpl.
    rewrite insert_insert_eq, app_empty_l.
    assert (printed tr = [] /\ requested tr = [] /\ Forall download_event tr)
      as (Hpr & Hreq & Htr').
    { clear -Htr. induction Htr as [|e tr [c ->] _ (IH1 & IH2 & IH3)]; [done|].
      repeat split; try done. by constructor. }
    clear Htr. rename Htr' into Htr.
    fold (body r). fold (received r). rewrite Z.add_0_l.
    assert (forall tail, Forall download_event tail -> requested tail = [] ->
              Forall download_event (EvOpenW path :: tr ++ tail) /\
              requested (EvOpenW path :: tr ++ tail) = [] /\
              printed (EvOpenW path :: tr ++ tail) = printed tail) as Hshape.
    { intros tail Htail Hrtail. split; [|split].
      - constructor; [exact I|]. by apply Forall_app.
      - change (requested (tr ++ tail) = []). unfold requested in *.
        by rewrite omap_app, Hreq, Hrtail.
      - change (printed (tr ++ tail) = printed tail). unfold printed in *.
        by rewrite omap_app, Hpr. }
    destruct (resp_abort r) as [e|] eqn:Habort.
    + destruct e; simpl; rewrite <- ?app_assoc; simpl;
        match goal with
        | |- context [(tr ++ ?tail)%list] =>
            exists (EvOpenW path :: tr ++ tail);
            destruct (Hshape tail) as (H1 & H2 & H3); [by repeat constructor|done|]
        | |- _ =>
            exists (EvOpenW path :: tr ++ []);
            destruct (Hshape []) as (H1 & H2 & H3); [by repeat constructor|done|];
            rewrite ?app_nil_r
        end;
        rewrite ?lookup_insert_eq; rewrite ?app_nil_r in *; done.
    + destruct (int_content_length (resp_content_length r)) as [n|e] eqn:Hint.
      * destruct (received r =? n) eqn:Heq; simpl; rewrite <- ?app_assoc; simpl;
          match goal with
          | |- context [(tr ++ ?tail)%list] =>
              exists (EvOpenW path :: tr ++ tail);
              destruct (Hshape tail) as (H1 & H2 & H3); [by repeat constructor|done|]
          | |- _ =>
              exists (EvOpenW path :: tr ++ []);
              destruct (Hshape []) as (H1 & H2 & H3); [by repeat constructor|done|];
              rewrite ?app_nil_r
          end;
          rewrite ?lookup_insert_eq; rewrite ?app_nil_r in *; done.
      * destruct (resp_content_length r); try discriminate Hint.
        injection Hint as <-. simpl. rewrite <- ?app_assoc. simpl.
        exists (EvOpenW path :: tr ++ [EvPrint (MsgIncomplete retry)]).
        destruct (Hshape [EvPrint (MsgIncomplete retry)]) as (H1 & H2 & H3);
          [by repeat constructor|done|].
        rewrite ?lookup_insert_eq; done.
Qed.

Lemma requested_app tr1 tr2 :
  requested (tr1 ++ tr2) = (requested tr1 ++ requested tr2)%list.
Proof. apply omap_app. Qed.

Lemma printed_app tr1 tr2 :
  printed (tr1 ++ tr2) = (printed tr1 ++ printed tr2)%list.
Proof. apply omap_app. Qed.

(** Whatever the network answers, the loop asks at most once per element
    of [tries], always for [url], and does nothing but ask, write and
    print. *)
Lemma download_loop_bound tries : forall E s,
  exists tr,
    st_trace (download_loop url download_path tries E s).2 = (st_trace s ++ tr)%list /\
    Forall download_event tr /\
    (List.length (requested tr) <= List.length tries)%nat /\
    Forall (eq url) (requested tr).
Proof.
  induction tries as [|retry rest IH]; intros E s.
  - exists []. simpl. rewrite app_nil_r. repeat split; constructor.
  - simpl. unfold bind.
    destruct (download_pass_run retry E s) as (tr & Htr & Hev & Hreq & _).
    destruct (download_pass url download_path retry E s) as [[[p|]|e] s1];
      simpl in Htr.
    + exists (EvGet url :: tr). simpl. rewrite Htr.
      change (requested (EvGet url :: tr)) with (url :: requested tr).
      rewrite Hreq. repeat split; [by constructor|simpl; lia|by repeat constructor].
    + destruct (IH E s1) as (tr' & Htr' & Hev' & Hlen & Hall).
      exists ((EvGet url :: tr) ++ tr'). rewrite Htr', Htr, <- app_assoc.
      rewrite requested_app.
      change (requested (EvGet url :: tr)) with (url :: requested tr).
      rewrite Hreq. simpl. repeat split.
      * constructor; [exact I|]. by apply Forall_app.
      * lia.
      * by constructor.
    + exists (EvGet url :: tr). simpl. rewrite Htr.
      change (requested (EvGet url :: tr)) with (url :: requested tr).
      rewrite Hreq. repeat split; [by constructor|simpl; lia|by repeat constructor].
Qed.


Lemma omap_seq_succ {B} (g : nat -> option B) n : forall a,
  omap g (seq (S a) n) = omap (fun i => g (S i)) (seq a n).
Proof.
  induction n as [|n IH]; intros a; [done|].
  cbn [seq omap list_omap]. change (list_omap nat B) with (@omap list _ nat B).
  by rewrite IH.
Qed.


End Download.





(** ** Computations and their traces *)

Section Emits.

Context {A B : Type}.
Variable P : event -> Prop.

Lemma emits_ret (a : A) (Q : A -> list event -> Prop) :
  Q a [] -> emits (ret a) P Q.
Proof.
  intros HQ E s. emits_nothing. by intros ? [= <-].
Qed.

Lemma emits_raise (e : exn) (Q : A -> list event -> Prop) :
  emits (raise e) P Q.
Proof.
  intros E s. emits_nothing. intros ? [=].
Qed.

Lemma emits_bind (m : M A) (k : A -> M B) Q1 Q2 (Q : B -> list event -> Prop) :
  emits m P Q1 ->
  (forall a, emits (k a) P (Q2 a)) ->
  (forall a b tr1 tr2, Q1 a tr1 -> Q2 a b tr2 -> Q b (tr1 ++ tr2)) ->
  emits (bind m k) P Q.
Proof.
  intros Hm Hk HQ E s. unfold bind.
  destruct (Hm E s) as (tr1 & Htr1 & HP1 & HQ1).
  destruct (m E s) as [[a|e] s1]; simpl in *.
  - destruct (Hk a E s1) as (tr2 & Htr2 & HP2 & HQ2).
    exists (tr1 ++ tr2). rewrite Htr2, Htr1, <- app_assoc.
    split; [done|]. split; [by apply Forall_app|].
    intros b Hb. eapply HQ; eauto.
  - exists tr1. split; [done|]. split; [done|]. intros ? [=].
Qed.

Lemma emits_weaken (m : M A) (Q Q' : A -> list event -> Prop) :
  emits m P Q -> (forall a tr, Q a tr -> Q' a tr) -> emits m P Q'.
Proof.
  intros Hm HQ E s. destruct (Hm E s) as (tr & Htr & HP & HQ1).
  exists tr. split; [done|]. split; [done|]. intros a Ha. by apply HQ, HQ1.
Qed.

End Emits.

Lemma emits_bind_get_state {A} P (k : state -> M A) Q :
  (forall s0, emits (k s0) P Q) -> emits (bind get_state k) P Q.
Proof. intros Hk E s. exact (Hk s E s). Qed.

Lemma emits_emit (P : event -> Prop) e : P e -> emits (emit e) P (fun _ tr => tr = [e]).
Proof.
  intros He E s. exists [e]. simpl. split; [done|]. split; [by repeat constructor|done].
Qed.

(** ** The classification *)

Lemma endswith_cons c s suffix :
  PyStr.endswith (String c s) suffix
  = String.eqb (String c s) suffix || PyStr.endswith s suffix.
Proof. reflexivity. Qed.

Lemma endswith_txt_not_fasta f :
  PyStr.endswith f ".txt" = true -> PyStr.endswith f ".fasta" = false.
Proof.
  induction f as [|c f IH]; [done|]. rewrite !endswith_cons.
  intros [Heq|Hrest]%orb_true_iff.
  - apply String.eqb_eq in Heq. by injection Heq as -> ->.
  - rewrite (IH Hrest), orb_false_r.
    apply String.eqb_neq. intros Hf.
    injection Hf as _ ->. discriminate Hrest.
Qed.

Lemma filter_cluster_kept cluster_id files kept :
  filter_cluster cluster_id files = Ok kept ->
  kept = List.filter (fun f => match cluster_token f with
                               | Ok tok => String.eqb tok cluster_id
                               | Raise _ => false
                               end) files.
Proof.
  revert kept. induction files as [|f files IH]; intros kept; simpl.
  - by intros [= <-].
  - destruct (cluster_token f) as [tok|e]; [|done].
    destruct (filter_cluster cluster_id files) as [kept'|e]; [|done].
    intros [= <-]. rewrite <- (IH kept' eq_refl).
    by destruct (String.eqb tok cluster_id).
Qed.

Lemma imported_app ty tr1 tr2 :
  imported ty (tr1 ++ tr2) = imported ty tr1 ++ imported ty tr2.
Proof. apply omap_app. Qed.

Lemma listed_app tr1 tr2 : listed (tr1 ++ tr2) = listed tr1 ++ listed tr2.
Proof. apply flat_map_app. Qed.

Lemma populated_refl cluster_id acc : populated cluster_id acc acc [].
Proof. unfold populated. simpl. by rewrite !app_nil_r. Qed.

Lemma populated_trans cluster_id acc1 acc2 acc3 tr1 tr2 :
  populated cluster_id acc1 acc2 tr1 ->
  populated cluster_id acc2 acc3 tr2 ->
  populated cluster_id acc1 acc3 (tr1 ++ tr2).
Proof.
  intros (Ht1 & Ha1 & Hs1 & Hb1) (Ht2 & Ha2 & Hs2 & Hb2). unfold populated.
  rewrite !imported_app, !listed_app, !List.filter_app, !map_app.
  rewrite Ht1, Ht2, Hs1, Hs2, Ha2, Ha1, Hb2, Hb1, <- !app_assoc. done.
Qed.

Lemma emits_for_each {A B} (P : event -> Prop) (R : A -> A -> list event -> Prop)
    (body : B -> A -> M A) (xs : list B) :
  (forall acc, R acc acc []) ->
  (forall acc1 acc2 acc3 tr1 tr2,
     R acc1 acc2 tr1 -> R acc2 acc3 tr2 -> R acc1 acc3 (tr1 ++ tr2)) ->
  (forall x acc, emits (body x acc) P (R acc)) ->
  forall acc, emits (for_each xs body acc) P (R acc).
Proof.
  intros Hrefl Htrans Hbody. induction xs as [|x xs IH]; intros acc; simpl.
  - by apply emits_ret.
  - eapply emits_bind; [apply Hbody|intros acc'; apply IH|].
    intros acc' acc'' tr1 tr2 H1 H2. simpl in *. eauto.
Qed.

Lemma emits_import_data semantic_type path view_type :
  emits (import_data semantic_type path view_type) walk_event
    (fun a tr => tr = [EvImport semantic_type path view_type (Ok a)]).
Proof.
  intros E s. eexists [_]. simpl. split; [done|]. split; [by repeat constructor|].
  by intros a ->.
Qed.

Lemma emits_import_files root files : forall acc,
  emits (import_files root files acc) walk_event (imports_of root files acc).
Proof.
  induction files as [|file rest IH]; intros acc; simpl.
  - apply emits_ret. unfold imports_of. simpl. by rewrite !app_nil_r.
  - destruct (PyStr.endswith file ".txt") eqn:Htxt.
    + eapply emits_bind; [apply emits_import_data|intros a; apply IH|].
      intros a acc' tr1 tr2 -> (Hl & Ht & Ha & Hs & Hb). simpl in *.
      unfold imports_of. simpl.
      rewrite Htxt, (endswith_txt_not_fasta _ Htxt), Hl, Ht, Hs, Ha, Hb, <- app_assoc.
      done.
    + destruct (PyStr.endswith file ".fasta") eqn:Hfasta.
      * eapply emits_bind; [apply emits_import_data|intros a; apply IH|].
        intros a acc' tr1 tr2 -> (Hl & Ht & Ha & Hs & Hb). simpl in *.
        unfold imports_of. simpl.
        rewrite Htxt, Hfasta, Hl, Ht, Hs, Ha, Hb, <- app_assoc. done.
      * eapply emits_weaken; [apply IH|]. intros acc' tr. unfold imports_of. simpl.
        by rewrite Htxt, Hfasta.
Qed.

Lemma filter_filter_andb {A} (f g : A -> bool) l :
  List.filter f (List.filter g l) = List.filter (fun x => g x && f x) l.
Proof.
  induction l as [|x l IH]; [done|]. simpl.
  destruct (g x); simpl; [|done]. destruct (f x); by rewrite IH.
Qed.

Lemma filter_pair_root {A} (root : string) (f : string -> bool) (g : string * string -> A)
    (files : list string) :
  map g (List.filter (fun rf => f rf.2) (map (pair root) files))
  = map (fun x => g (root, x)) (List.filter f files).
Proof.
  induction files as [|x files IH]; [done|]. simpl.
  destruct (f x); simpl; by rewrite IH.
Qed.

(** The body of the loop, after the listing of its directory. *)
Lemma emits_classify_directory cluster_id root dirs files acc :
  emits (classify_directory cluster_id root files acc) walk_event
    (fun acc' tr => populated cluster_id acc acc' (EvListdir root dirs files :: tr)).
Proof.
  unfold classify_directory.
  destruct (filter_cluster cluster_id files) as [kept|e] eqn:Hkept.
  - intros E s.
    change ((let! filtered_files := lift (Ok kept) in
             match filtered_files with
             | [] => raise (ValueError ("No files found with cluster_id = " +:+ cluster_id))
             | _ :: _ => import_files root filtered_files acc
             end) E s)
      with (match kept with
            | [] => raise (ValueError ("No files found with cluster_id = " +:+ cluster_id))
            | _ :: _ => import_files root kept acc
            end E s).
    revert E s. fold (emits (A := results)).
    destruct kept as [|f kept]; [apply emits_raise|].
    eapply emits_weaken; [apply emits_import_files|].
    intros acc' tr (Hl & Ht & Ha & Hs & Hb).
    apply filter_cluster_kept in Hkept. rewrite Hkept in Ht, Hs.
    rewrite !filter_filter_andb in Ht, Hs.
    unfold populated.
    change (EvListdir root dirs files :: tr) with ([EvListdir root dirs files] ++ tr).
    rewrite !imported_app, !listed_app. simpl.
    rewrite Hl, !app_nil_r, Ht, Hs.
    rewrite (filter_pair_root root (taxonomy_file cluster_id) file_path),
      (filter_pair_root root (sequence_file cluster_id) file_path).
    done.
  - intros E s. emits_nothing. intros ? [=].
Qed.

Lemma child_name_plain d p n : child_name d p = Some n -> plain_name n.
Proof.
  unfold child_name, plain_name.
  destruct (PyStr.strip_prefix (OsPath.join d "") p) as [m|]; [|done].
  destruct (String.eqb_spec m ""); [done|]. simpl.
  destruct (PyStr.contains "/" m) eqn:Hc; [done|]. by intros [= <-].
Qed.

Lemma omap_child_name_plain d ps : Forall plain_name (omap (child_name d) ps).
Proof.
  apply Forall_forall. intros n (p & _ & Hp)%list_elem_of_omap.
  by eapply child_name_plain.
Qed.

Lemma emits_scandir root :
  emits (scandir root) walk_event
    (fun listing tr => tr = [EvListdir root listing.1 listing.2]).
Proof.
  intros E s. eexists [_]. simpl. split; [done|]. split.
  - repeat constructor; apply omap_child_name_plain.
  - by intros [dirs files] [= <- <-].
Qed.

(** The loop over [os.walk] fills both lists with the files of the cluster
    it lists, whatever the fuel. *)
Lemma emits_os_walk_for cluster_id fuel : forall top acc,
  emits (os_walk_for fuel top
           (fun root dirs files acc => classify_directory cluster_id root files acc) acc)
    walk_event (populated cluster_id acc).
Proof.
  induction fuel as [|fuel IH]; intros top acc; simpl.
  - apply emits_ret, populated_refl.
  - apply emits_bind_get_state. intros s.
    destruct (bool_decide (top ∈ st_dirs s)); [|by apply emits_ret, populated_refl].
    eapply emits_bind with
      (Q2 := fun listing acc' tr =>
               populated cluster_id acc acc' (EvListdir top listing.1 listing.2 :: tr));
      [apply emits_scandir| |].
    + intros [dirs files].
      eapply emits_bind; [apply (emits_classify_directory _ _ dirs)| |].
      * intros acc1.
        apply (emits_for_each walk_event (populated cluster_id));
          [apply populated_refl|apply populated_trans|].
        intros name acc2. apply IH.
      * intros acc1 acc2 tr1 tr2 H1 H2. simpl in *.
        change (EvListdir top dirs files :: tr1 ++ tr2)
          with ((EvListdir top dirs files :: tr1) ++ tr2).
        by eapply populated_trans.
    + by intros [dirs files] acc' tr1 tr2 -> H.
Qed.

(** ** The fuel of the walk *)

(** The loop over [os.walk] leaves the directories of the state as they
    are. *)
Lemma import_files_dirs root files : forall acc E s,
  st_dirs (import_files root files acc E s).2 = st_dirs s.
Proof.
  induction files as [|file rest IH]; intros acc E s; cbn [import_files]; [done|].
  destruct (PyStr.endswith file ".txt"); [|destruct (PyStr.endswith file ".fasta")];
    [| |apply IH]; rewrite bind_run; unfold import_data;
    match goal with |- context [env_import ?E ?n ?a ?b ?c] =>
      destruct (env_import E n a b c)
    end; try done; by rewrite IH.
Qed.

Lemma classify_directory_dirs cluster_id root files acc E s :
  st_dirs (classify_directory cluster_id root files acc E s).2 = st_dirs s.
Proof.
  unfold classify_directory. rewrite bind_run. unfold lift.
  destruct (filter_cluster cluster_id files) as [[|f kept]|e]; [done| |done].
  apply import_files_dirs.
Qed.

Lemma for_each_dirs {A B} (body : B -> A -> M A) (xs : list B) :
  (forall x acc E s, st_dirs (body x acc E s).2 = st_dirs s) ->
  forall acc E s, st_dirs (for_each xs body acc E s).2 = st_dirs s.
Proof.
  intros Hbody. induction xs as [|x xs IH]; intros acc E s; cbn [for_each]; [done|].
  rewrite bind_run. specialize (Hbody x acc E s).
  destruct (body x acc E s) as [[acc'|e] s']; simpl in *; [|done].
  by rewrite IH.
Qed.

Lemma scandir_run root E s :
  exists dirs files,
    scandir root E s = (Ok (dirs, files), log (EvListdir root dirs files) s) /\
    Forall plain_name dirs.
Proof.
  exists (omap (child_name root) (elements (st_dirs s))),
    (omap (child_name root) (map fst (map_to_list (st_files s)))).
  split; [reflexivity|]. apply omap_child_name_plain.
Qed.

Lemma os_walk_for_dirs cluster_id fuel : forall top acc E s,
  st_dirs (os_walk_for fuel top
             (fun root dirs files acc => classify_directory cluster_id root files acc)
             acc E s).2 = st_dirs s.
Proof.
  induction fuel as [|fuel IH]; intros top acc E s; cbn [os_walk_for]; [done|].
  rewrite bind_run. unfold get_state. cbn beta iota.
  destruct (bool_decide (top ∈ st_dirs s)); [|done].
  rewrite bind_run. destruct (scandir_run top E s) as (dirs & files & -> & _).
  rewrite bind_run.
  match goal with |- context [classify_directory ?c ?r ?f ?a ?E ?s'] =>
    pose proof (classify_directory_dirs c r f a E s') as Hc;
    destruct (classify_directory c r f a E s') as [[acc'|e] s1]
  end; simpl in Hc; [|done].
  rewrite for_each_dirs; [done|]. intros name acc0 E0 s0. apply IH.
Qed.

Lemma join_plain_length top name :
  plain_name name ->
  (String.length top < String.length (OsPath.join top name))%nat.
Proof.
  intros [Hne Hplain]. unfold OsPath.join, PyStr.startswith.
  destruct name as [|c name]; [done|].
  assert (String.prefix "/" (String c name) = false) as ->.
  { change (String.prefix "/" (String c name))
      with (if ascii_dec "/" c then String.prefix "" name else false).
    destruct (ascii_dec "/" c) as [<-|]; [|done].
    simpl in Hplain. by destruct name. }
  destruct (String.eqb top "" || PyStr.endswith top "/");
    rewrite ?app_length_str; simpl; lia.
Qed.

Lemma for_each_ext {A B} (f g : B -> A -> M A) (xs : list B) (P : state -> Prop) :
  (forall x acc E s, P s -> P (f x acc E s).2) ->
  (forall x acc E s, In x xs -> P s -> f x acc E s = g x acc E s) ->
  forall acc E s, P s -> for_each xs f acc E s = for_each xs g acc E s.
Proof.
  intros Hkeep. induction xs as [|x xs IH]; intros Hfg acc E s Hs; cbn [for_each];
    [done|].
  rewrite !bind_run, <- (Hfg x acc E s); [|by left|done].
  specialize (Hkeep x acc E s Hs).
  destruct (f x acc E s) as [[acc'|e] s']; [|done].
  apply IH; [|done]. intros. apply Hfg; [by right|done].
Qed.

(** Once every directory of the state has a path shorter than that of
    [top] by less than the fuel, more fuel changes nothing: the walk has
    come to its end. *)
Lemma os_walk_for_fuel_enough cluster_id fuel : forall top acc E s,
  (forall d, d ∈ st_dirs s -> (String.length d < String.length top + fuel)%nat) ->
  os_walk_for (S fuel) top
    (fun root dirs files acc => classify_directory cluster_id root files acc) acc E s
  = os_walk_for fuel top
      (fun root dirs files acc => classify_directory cluster_id root files acc) acc E s.
Proof.
  induction fuel as [|fuel IH]; intros top acc E s Hshort.
  - cbn [os_walk_for]. rewrite bind_run. unfold get_state. cbn beta iota.
    destruct (bool_decide_reflect (top ∈ st_dirs s)) as [Hin|]; [|done].
    specialize (Hshort top Hin). lia.
  - change (os_walk_for (S (S fuel)) top ?body acc)
      with (let! s := get_state in
            if bool_decide (top ∈ st_dirs s) then
              let! '(dirs, files) := scandir top in
              let! acc := body top dirs files acc in
              for_each dirs
                (fun name acc => os_walk_for (S fuel) (OsPath.join top name) body acc) acc
            else ret acc).
    change (os_walk_for (S fuel) top ?body acc)
      with (let! s := get_state in
            if bool_decide (top ∈ st_dirs s) then
              let! '(dirs, files) := scandir top in
              let! acc := body top dirs files acc in
              for_each dirs
                (fun name acc => os_walk_for fuel (OsPath.join top name) body acc) acc
            else ret acc).
    rewrite !(bind_run get_state). unfold get_state. cbn beta iota.
    destruct (bool_decide (top ∈ st_dirs s)); [|done].
    rewrite !(bind_run (scandir top)).
    destruct (scandir_run top E s) as (dirs & files & -> & Hplain).
    rewrite !bind_run.
    match goal with |- context [classify_directory ?c ?r ?f ?a ?E ?s'] =>
      pose proof (classify_directory_dirs c r f a E s') as Hc;
      destruct (classify_directory c r f a E s') as [[acc'|e] s2]
    end; simpl in Hc; [|done].
    apply (for_each_ext _ _ _ (fun s' => st_dirs s' = st_dirs s)).
    + intros name acc0 E0 s0 Hs0. by rewrite os_walk_for_dirs.
    + intros name acc0 E0 s0 Hname Hs0. apply IH. intros d Hd.
      rewrite Hs0 in Hd. specialize (Hshort d Hd).
      rewrite Forall_forall in Hplain.
      pose proof (join_plain_length top name (Hplain name ltac:(by apply list_elem_of_In))).
      lia.
    + by rewrite Hc.
Qed.

(** [walk_fuel] is enough, and so is any greater fuel. *)
Lemma walk_fuel_enough cluster_id top acc E s extra :
  os_walk_for (walk_fuel s + extra) top
    (fun root dirs files acc => classify_directory cluster_id root files acc) acc E s
  = os_walk_for (walk_fuel s) top
      (fun root dirs files acc => classify_directory cluster_id root files acc) acc E s.
Proof.
  assert (forall d, d ∈ st_dirs s -> (String.length d < walk_fuel s)%nat) as Hlen.
  { intros d Hd. unfold walk_fuel.
    assert (String.length d ∈ map String.length (elements (st_dirs s))) as Hin.
    { apply list_elem_of_In, in_map, list_elem_of_In. by apply elem_of_elements. }
    apply max_list_elem_of_le in Hin. lia. }
  induction extra as [|extra IH]; [by rewrite Nat.add_0_r|].
  rewrite Nat.add_succ_r, os_walk_for_fuel_enough; [done|].
  intros d Hd. specialize (Hlen d Hd). lia.
Qed.

(** ** Temporary directories *)

Lemma emits_mono {A} (m : M A) (P P' : event -> Prop) Q :
  (forall e, P e -> P' e) -> emits m P Q -> emits m P' Q.
Proof.
  intros HP Hm E s. destruct (Hm E s) as (tr & Htr & Hall & HQ).
  exists tr. split; [done|]. split; [|done]. eapply Forall_impl; eauto.
Qed.

Lemma rmtree_run d E s :
  (rmtree d E s).1 = Ok tt /\
  st_trace (rmtree d E s).2 = st_trace s ++ [EvRmtree d] /\
  removed d (rmtree d E s).2 /\
  forall d', removed d' s -> removed d' (rmtree d E s).2.
Proof.
  simpl. split; [done|]. split; [done|]. split.
  - intros p Hp. split.
    + apply map_lookup_filter_None. right. intros x _. simpl. by rewrite Hp.
    + intros [Hin _]%elem_of_filter. by rewrite Hp in Hin.
  - intros d' Hgone p Hp. destruct (Hgone p Hp) as [Hf Hd]. split.
    + apply map_lookup_filter_None. by left.
    + intros [_ Hin]%elem_of_filter. done.
Qed.

(** A [with tempfile.TemporaryDirectory()] block: the directory is made,
    the body runs, the directory is removed, whatever the body did. *)
Lemma with_TemporaryDirectory_run {A} (body : string -> M A) E s :
  let d := env_mkdtemp E (st_tmps s) in
  let inner := body d E (mkdtemp E s).2 in
  (with_TemporaryDirectory body E s).1 = inner.1 /\
  st_trace (with_TemporaryDirectory body E s).2 = st_trace inner.2 ++ [EvRmtree d] /\
  st_trace (mkdtemp E s).2 = st_trace s ++ [EvMkdtemp d] /\
  removed d (with_TemporaryDirectory body E s).2 /\
  forall d', removed d' inner.2 -> removed d' (with_TemporaryDirectory body E s).2.
Proof.
  intros d inner. unfold with_TemporaryDirectory, bind, finally.
  change (mkdtemp E s) with (Ok d, (mkdtemp E s).2). cbn beta iota.
  fold inner. destruct inner as [r s1]. 
  destruct (rmtree_run d E s1) as (Hok & Htr & Hgone & Hkeep).
  destruct (rmtree d E s1) as [[[]|e] s2]; [|discriminate Hok]. simpl in *.
  done.
Qed.

Lemma silent_app tr1 tr2 : silent tr1 -> silent tr2 -> silent (tr1 ++ tr2).
Proof.
  intros [Hl1 Hi1] [Hl2 Hi2]. split.
  - by rewrite listed_app, Hl1, Hl2.
  - intros ty. by rewrite imported_app, Hi1, Hi2.
Qed.



Lemma populated_silent_l cluster_id acc acc' tr1 tr2 :
  silent tr1 -> populated cluster_id acc acc' tr2 ->
  populated cluster_id acc acc' (tr1 ++ tr2).
Proof.
  intros [Hl Hi] H. unfold populated in *.
  by rewrite !imported_app, !listed_app, Hl, !Hi.
Qed.


Lemma tmp_events_app tr1 tr2 : tmp_events (tr1 ++ tr2) = tmp_events tr1 ++ tmp_events tr2.
Proof. apply List.filter_app. Qed.

Lemma tmp_events_none (P : event -> Prop) tr :
  (forall e, P e -> match e with EvMkdtemp _ | EvRmtree _ => False | _ => True end) ->
  Forall P tr -> tmp_events tr = [].
Proof.
  intros HP. induction 1 as [|e tr He _ IH]; [done|].
  specialize (HP e He). unfold tmp_events in *. simpl. rewrite IH. by destruct e.
Qed.

(** ** [_unite_get_artifacts] *)

Lemma emits_tarfile_getmembers P tgz_file :
  emits (tarfile_getmembers tgz_file) P (fun _ tr => tr = []).
Proof.
  intros E s. unfold tarfile_getmembers.
  destruct tgz_file as [path|]; [|by emits_nothing].
  destruct (String.eqb path ""); [by emits_nothing|].
  unfold bind, ask, get_state, lift, raise.
  destruct (st_files s !! path); by emits_nothing.
Qed.

Lemma emits_tar_extract tmpdirname name member :
  emits (tar_extract tmpdirname name member) workspace_event (fun _ tr => silent tr).
Proof.
  intros E s. unfold tar_extract, bind, emit, modify, get_state, ret, raise.
  cbn beta iota.
  eexists [_]. 
  repeat match goal with
         | |- context [if ?b then _ else _] => destruct b
         end; simpl; (split; [done|]); (split; [by repeat constructor|]); done.
Qed.

Lemma emits_extract_members tmpdirname members :
  emits (extract_members tmpdirname members) workspace_event (fun _ tr => silent tr).
Proof.
  induction members as [|member rest IH]; simpl.
  - by apply emits_ret.
  - eapply emits_bind; [apply emits_tar_extract|intros ?; apply IH|].
    intros ? ? tr1 tr2. apply silent_app.
Qed.

Lemma walk_event_workspace e : walk_event e -> workspace_event e.
Proof. by destruct e. Qed.

(** The body of the [with] block of [_unite_get_artifacts]. *)
Lemma emits_artifacts_body tgz_file cluster_id tmpdirname :
  emits
    (do! print (MsgTemporaryDirectory tmpdirname) in
     let! tar := tarfile_getmembers tgz_file in
     let members := dev_members tar in
     do! match members with
         | [] => raise (ValueError "No '_dev' files found")
         | _ => extract_members tmpdirname members
         end in
     let! s := get_state in
     os_walk_for (walk_fuel s) tmpdirname
       (fun root dirs files acc => classify_directory cluster_id root files acc)
       ([], []))
    workspace_event (populated cluster_id ([], [])).
Proof.
  eapply emits_bind with (Q1 := fun _ tr => silent tr)
                         (Q2 := fun _ => populated cluster_id ([], []));
    [| |intros; by apply populated_silent_l].
  { eapply emits_weaken; [by apply emits_emit|]. by intros _ tr ->. }
  intros _.
  eapply emits_bind with (Q1 := fun _ tr => silent tr)
                         (Q2 := fun _ => populated cluster_id ([], []));
    [| |intros; by apply populated_silent_l].
  { eapply emits_weaken; [apply emits_tarfile_getmembers|]. by intros _ tr ->. }
  intros tar. cbn zeta.
  eapply emits_bind with (Q1 := fun _ tr => silent tr)
                         (Q2 := fun _ => populated cluster_id ([], []));
    [| |intros; by apply populated_silent_l].
  { destruct (dev_members tar); [apply emits_raise|apply emits_extract_members]. }
  intros _. apply emits_bind_get_state. intros s.
  eapply emits_mono; [apply walk_event_workspace|apply emits_os_walk_for].
Qed.

Lemma workspace_no_tmp tr : Forall workspace_event tr -> tmp_events tr = [].
Proof. apply tmp_events_none. by intros []. Qed.

Lemma download_no_tmp tr : Forall download_event tr -> tmp_events tr = [].
Proof. apply tmp_events_none. by intros []. Qed.

(** The whole of [_unite_get_artifacts]: a temporary directory made and
    removed around the extraction and the walk. *)
Lemma unite_get_artifacts_run tgz_file cluster_id E s :
  let run := _unite_get_artifacts tgz_file cluster_id E s in
  let d := env_mkdtemp E (st_tmps s) in
  exists tr,
    st_trace run.2 = st_trace s ++ EvMkdtemp d :: tr ++ [EvRmtree d] /\
    Forall workspace_event tr /\
    (forall res, run.1 = Ok res -> populated cluster_id ([], []) res tr) /\
    removed d run.2.
Proof.
  intros run d. subst run. unfold _unite_get_artifacts. cbn zeta.
  match goal with |- context [with_TemporaryDirectory ?b] => set (body := b) end.
  assert (emits (body d) workspace_event (populated cluster_id ([], []))) as Hb
    by (subst body; apply emits_artifacts_body).
  destruct (with_TemporaryDirectory_run body E s) as (Hres & Htr & Hmk & Hgone & _).
  fold d in Hres, Htr, Hmk, Hgone.
  destruct (Hb E (mkdtemp E s).2) as (tr & Hbody & Hall & Hpop).
  rewrite Hbody, Hmk, <- !app_assoc in Htr.
  exists tr. unfold bind.
  destruct (with_TemporaryDirectory body E s) as [[[tax seq]|e] s'];
    cbn [fst snd] in *; simpl; rewrite Htr;
    (split; [done|]); (split; [done|]); (split; [|done]).
  - intros res [= <-]. by apply Hpop.
  - intros res [=].
Qed.

(** ** [get_unite_data] *)

Lemma unite_get_doi_trace version taxon_group singletons E s :
  exists tr,
    st_trace (_unite_get_doi version taxon_group singletons E s).2 = st_trace s ++ tr /\
    Forall download_event tr.
Proof.
  unfold _unite_get_doi, bind, try_except, lift.
  destruct (unite_dois_lookup version taxon_group singletons) as [doi|e].
  - exists []. simpl. by rewrite app_nil_r.
  - destruct e; simpl;
      first [by exists []; rewrite app_nil_r
            | eexists [_]; split; [done|by repeat constructor]].
Qed.

(** The three ways [get_unite_data] can go: it fails before it makes a
    directory; the download raises inside the first directory; or
    [_unite_get_artifacts] runs in its own directory inside the first. *)
Lemma get_unite_data_run version taxon_group cluster_id singletons E s :
  let run := get_unite_data version taxon_group cluster_id singletons E s in
  exists tr0,
    Forall download_event tr0 /\
    ((st_trace run.2 = st_trace s ++ tr0 /\ exists e, run.1 = Raise e) \/
     (exists d1 tr1,
        st_trace run.2 = st_trace s ++ tr0 ++ EvMkdtemp d1 :: tr1 ++ [EvRmtree d1] /\
        Forall download_event tr1 /\ removed d1 run.2 /\ exists e, run.1 = Raise e) \/
     (exists d1 tr1 d2 tr2,
        st_trace run.2
        = st_trace s ++ tr0 ++ EvMkdtemp d1 :: tr1
            ++ (EvMkdtemp d2 :: tr2 ++ [EvRmtree d2]) ++ [EvRmtree d1] /\
        Forall download_event tr1 /\ Forall workspace_event tr2 /\
        removed d1 run.2 /\ removed d2 run.2 /\
        forall res, run.1 = Ok res -> populated cluster_id ([], []) res tr2)).
Proof.
  intros run. subst run. unfold get_unite_data. rewrite bind_run.
  destruct (unite_get_doi_trace version taxon_group singletons E s) as (trd & Htrd & Hd).
  destruct (_unite_get_doi version taxon_group singletons E s) as [[doi|e] s1];
    simpl in Htrd.
  2:{ exists trd. split; [done|]. left. simpl. eauto. }
  rewrite bind_run.
  destruct (unite_get_url_trace doi E s1) as [Htru _].
  destruct (_unite_get_url doi E s1) as [[url|e] s2]; simpl in Htru.
  2:{ exists (trd ++ [EvGet (PStr (base_url +:+ doi))]).
      split; [apply Forall_app; split; [done|by repeat constructor]|].
      left. simpl. rewrite Htru, Htrd, <- app_assoc. eauto. }
  exists (trd ++ [EvGet (PStr (base_url +:+ doi))]).
  split; [apply Forall_app; split; [done|by repeat constructor]|]. right.
  match goal with |- context [with_TemporaryDirectory ?b] => set (body := b) end.
  destruct (with_TemporaryDirectory_run body E s2) as (Hres & Htr & Hmk & Hgone & Hkeep).
  set (d1 := env_mkdtemp E (st_tmps s2)) in *.
  remember (mkdtemp E s2).2 as s3 eqn:Hs3def. clear Hs3def.
  rewrite Hres. 
  assert (st_trace s3 = st_trace s ++ (trd ++ [EvGet (PStr (base_url +:+ doi))])
                          ++ [EvMkdtemp d1]) as Hs3.
  { rewrite Hmk, Htru, Htrd, <- !app_assoc. done. }
  clear Hmk Htru Htrd Hres.
  subst body. cbn beta in *. rewrite bind_run in *.
  change (print (MsgTemporaryDirectory d1) E s3)
    with (Ok tt, log (EvPrint (MsgTemporaryDirectory d1)) s3) in *.
  cbn beta iota in *. rewrite bind_run in *.
  set (s4 := log (EvPrint (MsgTemporaryDirectory d1)) s3) in *.
  destruct (download_loop_bound url d1 (py_range retries_default) E s4)
    as (trg & Htrg & Hg & _).
  fold (_unite_get_tgz url d1 retries_default) in Htrg.
  destruct (_unite_get_tgz url d1 retries_default E s4) as [[p|e] s5];
    cbn [fst snd] in *.
  - right.
    destruct (unite_get_artifacts_run p cluster_id E s5) as (tr2 & Htr2 & Hw & Hpop & Hgone2).
    cbn zeta in *.
    exists d1, (EvPrint (MsgTemporaryDirectory d1) :: trg),
      (env_mkdtemp E (st_tmps s5)), tr2.
    rewrite Htr, Htr2, Htrg. subst s4. cbn [log st_trace]. rewrite Hs3, <- !app_assoc.
    simpl.
    split; [done|]. split; [by constructor|]. split; [done|]. split; [done|].
    split; [by apply Hkeep|done].
  - left. exists d1, (EvPrint (MsgTemporaryDirectory d1) :: trg).
    rewrite Htr, Htrg. subst s4. cbn [log st_trace]. rewrite Hs3, <- !app_assoc. simpl.
    split; [done|]. split; [by constructor|]. split; [done|]. eauto.
Qed.

(** ** Names and paths *)

Lemma prefix_slash_cons c s : String.prefix "/" (String c s) = Ascii.eqb c "/".
Proof.
  change (String.prefix "/" (String c s))
    with (if ascii_dec "/" c then String.prefix "" s else false).
  destruct (ascii_dec "/" c) as [<-|Hne].
  - by destruct s.
  - symmetry. apply Ascii.eqb_neq. congruence.
Qed.

Lemma contains_slash_cons c s :
  PyStr.contains "/" (String c s) = Ascii.eqb c "/" || PyStr.contains "/" s.
Proof.
  change (PyStr.contains "/" (String c s))
    with (String.prefix "/" (String c s) || PyStr.contains "/" s).
  by rewrite prefix_slash_cons.
Qed.











(** ** The claims on [_unite_get_artifacts] and [get_unite_data] *)




(** Two ways the call is given up by design, after which files that
    qualify are in no result.  An import that raises ends the call: the
    second taxonomy file is never handed to the import. *)
Lemma import_failure_ends_the_call :
  let E := {| env_get := fun _ _ => no_network 0%nat;
              env_mkdtemp := fun _ => "/tmp/tmp0";
              env_untar := fun _ =>
                Ok [member_file "sh/ab_cd_ef_gh_99_a_dev.txt";
                    member_file "sh/ab_cd_ef_gh_99_b_dev.txt"];
              env_import := fun _ _ _ _ => Raise (OtherError "ValidationError") |} in
  let run := _unite_get_artifacts (Some "/data/unite.tgz") "99" E example_state in
  run.1 = Raise (OtherError "ValidationError") /\
  List.length (listed (events_since example_state run.2)) = 2%nat /\
  imported "FeatureData[Taxonomy]" (events_since example_state run.2) = [].
Proof. vm_compute. done. Qed.

(** The guard against a directory without a file of the cluster sits in
    the loop over [os.walk]: a directory of the archive whose name contains
    "_dev" is extracted as an empty directory, and the walk raises there
    after it has imported the files next to it. *)
Lemma walked_directory_without_match_raises :
  let E := example_env no_network
             [member_dir "rel_dev"; member_file "rel_dev/ab_cd_ef_gh_99_dev.txt"] in
  let run := _unite_get_artifacts (Some "/data/unite.tgz") "99" E example_state in
  run.1 = Raise (ValueError "No files found with cluster_id = 99") /\
  imported "FeatureData[Taxonomy]" (events_since example_state run.2)
  = [("/tmp/tmp0/ab_cd_ef_gh_99_dev.txt", Artifact 0)].
Proof. vm_compute. done. Qed.


(** C5, where the code departs from the claim: the archive holds the one
    member [rel/readme_dev.txt]; no extracted file has "99" as its fifth
    token, and yet the call raises [IndexError], not the [ValueError] that
    names the cluster. *)
Theorem unite_get_artifacts_short_name_raises_IndexError :
  let E := example_env no_network [member_file "rel/readme_dev.txt"] in
  let run := _unite_get_artifacts (Some "/data/unite.tgz") "99" E example_state in
  listed (events_since example_state run.2) = [("/tmp/tmp0", "readme_dev.txt")] /\
  cluster_token "readme_dev.txt" = Raise IndexError /\
  run.1 = Raise IndexError /\
  run.1 <> Raise (ValueError ("No files found with cluster_id = " +:+ "99")).
Proof.
  intros E run.
  assert (run.1 = Raise IndexError) as -> by (vm_compute; reflexivity).
  split; [vm_compute; reflexivity|]. split; [reflexivity|]. split; [reflexivity|].
  discriminate.
Qed.

(** X12: an archive without a member whose path contains "_dev": the call
    raises the error that says so, and all it has done by then is make and
    remove its directory and print its name. *)
Lemma unite_get_artifacts_without_dev_members path data members cluster_id E s :
  path <> "" ->
  st_files s !! path = Some data ->
  env_untar E data = Ok members ->
  dev_members members = [] ->
  let run := _unite_get_artifacts (Some path) cluster_id E s in
  let d := env_mkdtemp E (st_tmps s) in
  run.1 = Raise (ValueError "No '_dev' files found") /\
  events_since s run.2
  = [EvMkdtemp d; EvPrint (MsgTemporaryDirectory d); EvRmtree d].
Proof.
  intros Hpath Hfile Htar Hdev run d. subst run d.
  unfold _unite_get_artifacts, with_TemporaryDirectory, finally, tarfile_getmembers,
    bind, mkdtemp, print, emit, modify, ask, get_state, lift, raise, rmtree.
  cbn beta iota zeta.
  apply String.eqb_neq in Hpath. rewrite Hpath. simpl.
  rewrite Hfile, Htar, Hdev. simpl. split; [done|].
  apply events_since_app. cbn [set_dirs set_files log st_trace].
  by rewrite <- !app_assoc.
Qed.

(** C9: both temporary directories are removed, with all they hold, on
    every way out.  [_unite_get_artifacts] makes one directory and removes
    it, whatever happens in between; [get_unite_data] makes none when it
    fails before the download, one when the download raises, and otherwise
    two, the directory of the extraction removed before that of the
    download; when the call ends, nothing is left at or below any of
    them. *)
Theorem temporary_directories_removed_on_every_exit :
  (forall tgz_file cluster_id E s,
     let run := _unite_get_artifacts tgz_file cluster_id E s in
     exists d,
       tmp_events (events_since s run.2) = [EvMkdtemp d; EvRmtree d] /\
       removed d run.2) /\
  (forall version taxon_group cluster_id singletons E s,
     let run := get_unite_data version taxon_group cluster_id singletons E s in
     (tmp_events (events_since s run.2) = [] /\ exists e, run.1 = Raise e) \/
     (exists d1,
        tmp_events (events_since s run.2) = [EvMkdtemp d1; EvRmtree d1] /\
        removed d1 run.2 /\ exists e, run.1 = Raise e) \/
     (exists d1 d2,
        tmp_events (events_since s run.2)
        = [EvMkdtemp d1; EvMkdtemp d2; EvRmtree d2; EvRmtree d1] /\
        removed d1 run.2 /\ removed d2 run.2)).
Proof.
  split.
  - intros tgz_file cluster_id E s run. subst run.
    destruct (unite_get_artifacts_run tgz_file cluster_id E s)
      as (tr & Htr & Hall & _ & Hgone).
    exists (env_mkdtemp E (st_tmps s)). split; [|done].
    rewrite (events_since_app _ _ _ Htr).
    change (EvMkdtemp ?d :: tr ++ [EvRmtree ?d'])
      with ([EvMkdtemp d] ++ tr ++ [EvRmtree d']).
    by rewrite !tmp_events_app, (workspace_no_tmp _ Hall).
  - intros version taxon_group cluster_id singletons E s run. subst run.
    destruct (get_unite_data_run version taxon_group cluster_id singletons E s)
      as (tr0 & H0 & [[Htr He]|[(d1 & tr1 & Htr & H1 & Hgone & He)
                     |(d1 & tr1 & d2 & tr2 & Htr & H1 & H2 & Hg1 & Hg2 & _)]]);
      rewrite (events_since_app _ _ _ Htr).
    + left. split; [by apply download_no_tmp|done].
    + right; left. exists d1. split; [|done].
      change (EvMkdtemp d1 :: tr1 ++ [EvRmtree d1])
        with ([EvMkdtemp d1] ++ tr1 ++ [EvRmtree d1]).
      by rewrite !tmp_events_app, (download_no_tmp _ H0), (download_no_tmp _ H1).
    + right; right. exists d1, d2. split; [|done].
      change (EvMkdtemp d1 :: tr1 ++ (EvMkdtemp d2 :: tr2 ++ [EvRmtree d2]) ++ [EvRmtree d1])
        with ([EvMkdtemp d1] ++ tr1 ++ ([EvMkdtemp d2] ++ tr2 ++ [EvRmtree d2])
              ++ [EvRmtree d1]).
      by rewrite !tmp_events_app, (download_no_tmp _ H0), (download_no_tmp _ H1),
        (workspace_no_tmp _ H2).
Qed.

(** C10: when the DOI and the URL resolve and [_unite_get_tgz] uses up its
    attempts and returns [None], [get_unite_data] hands that [None] to
    [_unite_get_artifacts] and ends with the exception [tarfile.open]
    raises for it, [ValueError("nothing to open")]; after the download
    the only effects are the making and the removal of the second
    directory, the line that prints its name, and the removal of the first:
    nothing is extracted or imported, and the caller never sees the
    [None]. *)
Theorem get_unite_data_raises_when_download_exhausted
    version taxon_group cluster_id singletons E s doi url s1 s2 s4 :
  _unite_get_doi version taxon_group singletons E s = (Ok doi, s1) ->
  _unite_get_url doi E s1 = (Ok url, s2) ->
  let d1 := env_mkdtemp E (st_tmps s2) in
  _unite_get_tgz url d1 retries_default E
    (log (EvPrint (MsgTemporaryDirectory d1)) (mkdtemp E s2).2) = (Ok None, s4) ->
  let run := get_unite_data version taxon_group cluster_id singletons E s in
  let d2 := env_mkdtemp E (st_tmps s4) in
  run.1 = Raise (ValueError "nothing to open") /\
  events_since s4 run.2
  = [EvMkdtemp d2; EvPrint (MsgTemporaryDirectory d2); EvRmtree d2; EvRmtree d1].
Proof.
  intros Hdoi Hurl d1 Htgz run d2. subst run.
  destruct (get_unite_data version taxon_group cluster_id singletons E s)
    as [r s'] eqn:Hrun.
  unfold get_unite_data in Hrun. rewrite bind_run, Hdoi, bind_run, Hurl in Hrun.
  unfold with_TemporaryDirectory at 1 in Hrun. rewrite bind_run in Hrun.
  change (mkdtemp E s2) with (Ok d1, (mkdtemp E s2).2) in Hrun. cbn beta iota in Hrun.
  unfold finally at 1 in Hrun. rewrite bind_run in Hrun.
  change (print (MsgTemporaryDirectory d1) E (mkdtemp E s2).2)
    with (Ok tt, log (EvPrint (MsgTemporaryDirectory d1)) (mkdtemp E s2).2) in Hrun.
  cbn beta iota in Hrun. rewrite bind_run, Htgz in Hrun. cbn beta iota in Hrun.
  unfold _unite_get_artifacts, with_TemporaryDirectory, finally, tarfile_getmembers,
    bind, mkdtemp, print, emit, modify, raise, rmtree in Hrun.
  cbn beta iota zeta in Hrun. fold d2 in Hrun. injection Hrun as <- <-.
  split; [done|].
  apply events_since_app. cbn [snd set_dirs set_files log st_trace].
  by rewrite <- !app_assoc.
Qed.

Lemma get_unite_data_raises_when_download_exhausted_witness :
  let E := example_env
             (fun n =>
                match n with
                | O => GetReturns
                         {| resp_content_length := HeaderAbsent; resp_chunks := [];
                            resp_abort := None;
                            resp_json :=
                              Ok (PDict [("data", PList [PDict [("attributes",
                                    PDict [("media",
                                      PList [PDict [("url", PStr "https://files/unite.tgz")]])])]])]) |}
                | _ => GetRaises (HTTPError 503)
                end) [] in
  let run := get_unite_data "8.2" "fungi" "99" false E example_state in
  run.1 = Raise (ValueError "nothing to open") /\
  printed (events_since example_state run.2)
  = [MsgTemporaryDirectory "/tmp/tmp0";
     MsgRequestFailed 503 0; MsgRequestFailed 503 1; MsgRequestFailed 503 2;
     MsgRequestFailed 503 3; MsgRequestFailed 503 4; MsgRequestFailed 503 5;
     MsgRequestFailed 503 6; MsgRequestFailed 503 7; MsgRequestFailed 503 8;
     MsgRequestFailed 503 9; MsgTemporaryDirectory "/tmp/tmp1"].
Proof.
  intros E run.
  destruct (get_unite_data_raises_when_download_exhausted
              "8.2" "fungi" "99" false E example_state
              "10.15156/BIO/786385" (PStr "https://files/unite.tgz")
              example_state
              (_unite_get_url "10.15156/BIO/786385" E example_state).2
              (_unite_get_tgz (PStr "https://files/unite.tgz") "/tmp/tmp0" retries_default E
                 (log (EvPrint (MsgTemporaryDirectory "/tmp/tmp0"))
                    (mkdtemp E (_unite_get_url "10.15156/BIO/786385" E example_state).2).2)).2)
    as [Hres _]; [vm_compute; reflexivity..|].
  split; [exact Hres|]. vm_compute. reflexivity.
Defined.

(** * Further properties of the code *)

(** ** [_unite_get_doi]: the domain of the table *)

Lemma unite_dois_lookup_cases version taxon_group singletons :
  (In version known_versions /\ In taxon_group known_groups /\
   exists doi, unite_dois_lookup version taxon_group singletons = Ok doi) \/
  (~ In version known_versions /\
   unite_dois_lookup version taxon_group singletons = Raise (KeyError (KStr version))) \/
  (In version known_versions /\ ~ In taxon_group known_groups /\
   unite_dois_lookup version taxon_group singletons = Raise (KeyError (KStr taxon_group))).
Proof.
  assert (forall (a b : gmap bool string) (g : string),
            (In g known_groups /\
             ({[ "fungi" := a; "eukaryotes" := b ]} : gmap string _) !! g
             = Some (if decide (g = "fungi") then a else b)) \/
            (~ In g known_groups /\
             ({[ "fungi" := a; "eukaryotes" := b ]} : gmap string (gmap bool string)) !! g
             = None)) as Hgroup.
  { intros a b g. destruct (decide (g = "fungi")) as [->|Hf].
    - left. split; [by left|]. apply lookup_insert_eq.
    - rewrite lookup_insert_ne by done.
      destruct (decide (g = "eukaryotes")) as [->|He].
      + left. split; [right; by left|]. apply lookup_singleton_eq.
      + right. split; [|by apply lookup_singleton_ne].
        intros [?|[?|[]]]; congruence. }
  unfold unite_dois_lookup, dict_getitem, unite_dois.
  destruct (decide (version = "9.0")) as [->|H90].
  { rewrite lookup_insert_eq.
    match goal with |- context [?m !! taxon_group] =>
      match m with {[ _ := ?a; _ := ?b ]} => destruct (Hgroup a b taxon_group) as [[Hin ->]|[Hin ->]]
      end end.
    - left. split; [by left|]. split; [done|].
      destruct (decide (taxon_group = "fungi")); destruct singletons; eexists; reflexivity.
    - right; right. split; [by left|]. done. }
  rewrite lookup_insert_ne by done.
  destruct (decide (version = "8.3")) as [->|H83].
  { rewrite lookup_insert_eq.
    match goal with |- context [?m !! taxon_group] =>
      match m with {[ _ := ?a; _ := ?b ]} => destruct (Hgroup a b taxon_group) as [[Hin ->]|[Hin ->]]
      end end.
    - left. split; [right; by left|]. split; [done|].
      destruct (decide (taxon_group = "fungi")); destruct singletons; eexists; reflexivity.
    - right; right. split; [right; by left|]. done. }
  rewrite lookup_insert_ne by done.
  destruct (decide (version = "8.2")) as [->|H82].
  { rewrite lookup_singleton_eq.
    match goal with |- context [?m !! taxon_group] =>
      match m with {[ _ := ?a; _ := ?b ]} => destruct (Hgroup a b taxon_group) as [[Hin ->]|[Hin ->]]
      end end.
    - left. split; [right; right; by left|]. split; [done|].
      destruct (decide (taxon_group = "fungi")); destruct singletons; eexists; reflexivity.
    - right; right. split; [right; right; by left|]. done. }
  rewrite lookup_singleton_ne by done.
  right; left. split; [|done]. intros [?|[?|[?|[]]]]; congruence.
Qed.

Lemma unite_get_doi_result version taxon_group singletons E s :
  (_unite_get_doi version taxon_group singletons E s).1
  = unite_dois_lookup version taxon_group singletons.
Proof.
  unfold _unite_get_doi, bind, try_except, lift.
  destruct (unite_dois_lookup version taxon_group singletons) as [doi|e]; [done|].
  by destruct e.
Qed.

(** X1: [_unite_get_doi] returns a DOI exactly for the versions "9.0",
    "8.3" and "8.2" with the groups "fungi" and "eukaryotes", whatever the
    singletons flag; for another version it raises [KeyError] with the
    version, for a known version with another group [KeyError] with the
    group: the flag is never the key that is missing. *)
Theorem unite_get_doi_succeeds_iff_known version taxon_group singletons E s :
  ((exists doi, (_unite_get_doi version taxon_group singletons E s).1 = Ok doi) <->
   In version known_versions /\ In taxon_group known_groups) /\
  (~ In version known_versions ->
   (_unite_get_doi version taxon_group singletons E s).1
   = Raise (KeyError (KStr version))) /\
  (In version known_versions -> ~ In taxon_group known_groups ->
   (_unite_get_doi version taxon_group singletons E s).1
   = Raise (KeyError (KStr taxon_group))).
Proof.
  rewrite unite_get_doi_result.
  destruct (unite_dois_lookup_cases version taxon_group singletons)
    as [(Hv & Hg & doi & ->)|[(Hv & ->)|(Hv & Hg & ->)]].
  - split; [split; eauto|]. split; [done|]. done.
  - split; [split; [by intros [? [=]]|by intros [? _]]|]. split; [done|]. done.
  - split; [split; [by intros [? [=]]|by intros [_ ?]]|]. split; [done|]. done.
Qed.

Lemma unite_get_doi_succeeds_iff_known_witness :
  ~ In "7.2" known_versions /\
  (_unite_get_doi "7.2" "fungi" true (example_env no_network []) example_state).1
  = Raise (KeyError (KStr "7.2")) /\
  In "8.3" known_versions /\ ~ In "plants" known_groups /\
  (_unite_get_doi "8.3" "plants" false (example_env no_network []) example_state).1
  = Raise (KeyError (KStr "plants")).
Proof.
  assert (~ In "7.2" known_versions) as H1 by (intros [?|[?|[?|[]]]]; discriminate).
  assert (In "8.3" known_versions) as H2 by (right; by left).
  assert (~ In "plants" known_groups) as H3 by (intros [?|[?|[]]]; discriminate).
  split; [exact H1|]. split.
  - exact (proj1 (proj2 (unite_get_doi_succeeds_iff_known "7.2" "fungi" true
                           (example_env no_network []) example_state)) H1).
  - split; [exact H2|]. split; [exact H3|].
    exact (proj2 (proj2 (unite_get_doi_succeeds_iff_known "8.3" "plants" false
                           (example_env no_network []) example_state)) H2 H3).
Defined.

(** X2: no two entries of the table share a DOI: when [_unite_get_doi]
    returns the same string for two triples, the triples are the same. *)
Theorem unite_get_doi_injective
    version taxon_group singletons version' taxon_group' singletons' doi E s E' s' :
  (_unite_get_doi version taxon_group singletons E s).1 = Ok doi ->
  (_unite_get_doi version' taxon_group' singletons' E' s').1 = Ok doi ->
  version = version' /\ taxon_group = taxon_group' /\ singletons = singletons'.
Proof.
  rewrite !unite_get_doi_result. intros H1 H2.
  destruct (unite_dois_lookup_cases version taxon_group singletons)
    as [(Hv & Hg & _)|[(_ & Hr)|(_ & _ & Hr)]]; [|congruence..].
  destruct (unite_dois_lookup_cases version' taxon_group' singletons')
    as [(Hv' & Hg' & _)|[(_ & Hr)|(_ & _ & Hr)]]; [|congruence..].
  unfold known_versions, known_groups in *. simpl in Hv, Hg, Hv', Hg'.
  destruct Hv as [<-|[<-|[<-|[]]]]; destruct Hg as [<-|[<-|[]]];
    destruct singletons; vm_compute in H1; injection H1 as <-;
    destruct Hv' as [<-|[<-|[<-|[]]]]; destruct Hg' as [<-|[<-|[]]];
    destruct singletons'; vm_compute in H2; first [done|discriminate H2].
Qed.

Lemma unite_get_doi_injective_witness :
  "8.2" = "8.2" /\ "fungi" = "fungi" /\ true = true.
Proof.
  exact (unite_get_doi_injective "8.2" "fungi" true "8.2" "fungi" true
           "10.15156/BIO/786387" (example_env no_network []) example_state
           (example_env no_network []) example_state eq_refl eq_refl).
Defined.

(** ** [_unite_get_url]: answers that are not well formed *)

(** [v[k]] returns only for a dict that has the key. *)
Lemma getitem_str_ok v k x :
  PyVal.getitem_str v k = Ok x ->
  exists items, v = PDict items /\ PyVal.dict_get items k = Some x.
Proof.
  destruct v as [| | | | |items|items]; try discriminate. simpl.
  destruct (PyVal.dict_get items k) as [y|] eqn:Hk; [|discriminate].
  intros [= <-]. eauto.
Qed.

(** [v[0]["attributes"]] returns only for a list that starts with a dict
    that has the key. *)
Lemma getitem_first_dict v x attributes :
  PyVal.getitem_int v 0 = Ok x ->
  PyVal.getitem_str x "attributes" = Ok attributes ->
  exists first others,
    v = PList (PDict first :: others) /\
    PyVal.dict_get first "attributes" = Some attributes.
Proof.
  intros Hx Hattr. apply getitem_str_ok in Hattr as (first & -> & Hattr).
  destruct v as [| | | |str|items|items]; try discriminate.
  - simpl in Hx. destruct (PyVal.index (String.length str) 0); [|discriminate].
    destruct (String.get n str); discriminate.
  - destruct items as [|y others]; [discriminate|].
    injection Hx as ->. eauto.
Qed.

(** [v[-1]["url"]] returns only for a list that ends with a dict that has
    the key. *)
Lemma getitem_last_dict v x url :
  PyVal.getitem_int v (-1) = Ok x ->
  PyVal.getitem_str x "url" = Ok url ->
  exists media newest,
    v = PList media /\ last media = Some (PDict newest) /\
    PyVal.dict_get newest "url" = Some url.
Proof.
  intros Hx Hurl. apply getitem_str_ok in Hurl as (newest & -> & Hurl).
  destruct v as [| | | |str|items|items]; try discriminate.
  - simpl in Hx. destruct (PyVal.index (String.length str) (-1)); [|discriminate].
    destruct (String.get n str); discriminate.
  - exists items, newest. split; [done|]. split; [|done].
    unfold PyVal.getitem_int in Hx.
    destruct items as [|y items]; [discriminate|].
    rewrite index_last in Hx by (simpl; lia).
    rewrite last_lookup.
    replace (Init.Nat.pred (List.length (y :: items)))
      with (List.length (y :: items) - 1)%nat by lia.
    destruct ((y :: items) !! (List.length (y :: items) - 1)%nat); [|discriminate].
    by injection Hx as ->.
Qed.

(** X3: [_unite_get_url] returns a value only when the request returned a
    response whose [json()] is an object with a non-empty array [data],
    whose first element is an object whose [attributes] have a non-empty
    array [media], whose last element is an object with the key [url]; the
    value is then what is stored under that key. *)
Theorem unite_get_url_returns_only_from_well_formed_answer doi E s url :
  (_unite_get_url doi E s).1 = Ok url ->
  exists r top first others attributes media newest,
    env_get E (st_gets s) (PStr (base_url +:+ doi)) = GetReturns r /\
    resp_json r = Ok (PDict top) /\
    PyVal.dict_get top "data" = Some (PList (PDict first :: others)) /\
    PyVal.dict_get first "attributes" = Some (PDict attributes) /\
    PyVal.dict_get attributes "media" = Some (PList media) /\
    last media = Some (PDict newest) /\
    PyVal.dict_get newest "url" = Some url.
Proof.
  unfold _unite_get_url, bind, requests_get, lift, ret.
  destruct (env_get E (st_gets s) (PStr (base_url +:+ doi))) as [e|r]; [discriminate|].
  destruct (resp_json r) as [query_data|e] eqn:Hjson; [|discriminate].
  destruct (PyVal.getitem_str query_data "data") as [data|e] eqn:Hdata; [|discriminate].
  destruct (PyVal.getitem_int data 0) as [first|e] eqn:Hfirst; [|discriminate].
  destruct (PyVal.getitem_str first "attributes") as [attributes|e] eqn:Hattr;
    [|discriminate].
  destruct (PyVal.getitem_str attributes "media") as [media|e] eqn:Hmedia; [|discriminate].
  destruct (PyVal.getitem_int media (-1)) as [newest|e] eqn:Hnewest; [|discriminate].
  destruct (PyVal.getitem_str newest "url") as [URL|e] eqn:Hurl; [|discriminate].
  simpl. intros [= ->].
  apply getitem_str_ok in Hdata as (top & -> & Hdata).
  destruct (getitem_first_dict _ _ _ Hfirst Hattr) as (first' & others & -> & Hattr').
  apply getitem_str_ok in Hmedia as (attrs & -> & Hmedia).
  destruct (getitem_last_dict _ _ _ Hnewest Hurl) as (items & newest' & -> & Hlast & Hurl').
  exists r, top, first', others, attrs, items, newest'. done.
Qed.

Lemma unite_get_url_returns_only_from_well_formed_answer_witness :
  let E := example_env
             (fun _ => GetReturns
                {| resp_content_length := HeaderAbsent; resp_chunks := [];
                   resp_abort := None;
                   resp_json :=
                     Ok (PDict [("data", PList [PDict [("attributes",
                           PDict [("media",
                             PList [PDict [("url", PStr "https://files/unite.tgz")]])])]])]) |})
             [] in
  exists r top,
    env_get E 0%nat (PStr (base_url +:+ "10.15156/BIO/786385")) = GetReturns r /\
    resp_json r = Ok (PDict top).
Proof.
  intros E.
  destruct (unite_get_url_returns_only_from_well_formed_answer
              "10.15156/BIO/786385" E example_state (PStr "https://files/unite.tgz")
              eq_refl)
    as (r & top & _ & _ & _ & _ & _ & Hget & Hjson & _).
  exists r, top. split; [exact Hget|exact Hjson].
Defined.

(** X4: [_unite_get_url] handles no error.  An exception of the request,
    or of [json()], reaches the caller as it is; an answer that is no
    object gives [TypeError]; an object without [data], [KeyError] with
    that key; an empty [data] or an empty [media], [IndexError]; a last
    element of [media] without [url], [KeyError] with that key. *)
Theorem unite_get_url_failure_modes doi E s :
  let answer := env_get E (st_gets s) (PStr (base_url +:+ doi)) in
  let run := _unite_get_url doi E s in
  (forall e, answer = GetRaises e -> run.1 = Raise e) /\
  (forall r e, answer = GetReturns r -> resp_json r = Raise e -> run.1 = Raise e) /\
  (forall r v, answer = GetReturns r -> resp_json r = Ok v ->
     match v with PDict _ => False | _ => True end -> run.1 = Raise TypeError) /\
  (forall r top, answer = GetReturns r -> resp_json r = Ok (PDict top) ->
     PyVal.dict_get top "data" = None -> run.1 = Raise (KeyError (KStr "data"))) /\
  (forall r top, answer = GetReturns r -> resp_json r = Ok (PDict top) ->
     PyVal.dict_get top "data" = Some (PList []) -> run.1 = Raise IndexError) /\
  (forall r top first others attributes,
     answer = GetReturns r -> resp_json r = Ok (PDict top) ->
     PyVal.dict_get top "data" = Some (PList (PDict first :: others)) ->
     PyVal.dict_get first "attributes" = Some (PDict attributes) ->
     PyVal.dict_get attributes "media" = Some (PList []) ->
     run.1 = Raise IndexError) /\
  (forall r top first others attributes media newest,
     answer = GetReturns r -> resp_json r = Ok (PDict top) ->
     PyVal.dict_get top "data" = Some (PList (PDict first :: others)) ->
     PyVal.dict_get first "attributes" = Some (PDict attributes) ->
     PyVal.dict_get attributes "media" = Some (PList media) ->
     last media = Some (PDict newest) ->
     PyVal.dict_get newest "url" = None ->
     run.1 = Raise (KeyError (KStr "url"))).
Proof.
  intros answer run. subst answer run.
  unfold _unite_get_url, bind, requests_get, lift, ret.
  split; [by intros e ->|].
  split; [by intros r e -> ->|].
  split; [intros r v -> -> Hv; by destruct v|].
  split; [intros r top -> -> Hdata; simpl; by rewrite Hdata|].
  split; [intros r top -> -> Hdata; simpl; by rewrite Hdata|].
  split.
  - intros r top first others attributes -> -> Hdata Hattr Hmedia. simpl.
    rewrite Hdata. simpl. rewrite Hattr. simpl. by rewrite Hmedia.
  - intros r top first others attributes media newest -> -> Hdata Hattr Hmedia
      Hlast Hurl. simpl.
    rewrite Hdata. simpl. rewrite Hattr. simpl. rewrite Hmedia.
    rewrite (getitem_last _ _ Hlast). simpl. by rewrite Hurl.
Qed.

Lemma unite_get_url_failure_modes_witness :
  let answer (v : result pyval) :=
    example_env (fun _ => GetReturns {| resp_content_length := HeaderAbsent;
                                        resp_chunks := []; resp_abort := None;
                                        resp_json := v |}) [] in
  (_unite_get_url "10.15156/BIO/786385" (example_env no_network []) example_state).1
  = Raise (OtherError "ConnectionError") /\
  (_unite_get_url "10.15156/BIO/786385"
     (answer (Raise (OtherError "JSONDecodeError"))) example_state).1
  = Raise (OtherError "JSONDecodeError") /\
  (_unite_get_url "10.15156/BIO/786385" (answer (Ok (PList []))) example_state).1
  = Raise TypeError /\
  (_unite_get_url "10.15156/BIO/786385"
     (answer (Ok (PDict [("errors", PList [])]))) example_state).1
  = Raise (KeyError (KStr "data")) /\
  (_unite_get_url "10.15156/BIO/786385"
     (answer (Ok (PDict [("data", PList [])]))) example_state).1
  = Raise IndexError /\
  (_unite_get_url "10.15156/BIO/786385"
     (answer (Ok (PDict [("data", PList [PDict [("attributes",
                    PDict [("media", PList [])])]])]))) example_state).1
  = Raise IndexError /\
  (_unite_get_url "10.15156/BIO/786385"
     (answer (Ok (PDict [("data", PList [PDict [("attributes",
                    PDict [("media", PList [PDict [("name", PStr "a.tgz")]])])]])])))
     example_state).1
  = Raise (KeyError (KStr "url")).
Proof.
  intros answer.
  split.
  { exact (proj1 (unite_get_url_failure_modes "10.15156/BIO/786385"
                    (example_env no_network []) example_state) _ eq_refl). }
  split.
  { exact (proj1 (proj2 (unite_get_url_failure_modes "10.15156/BIO/786385"
                           (answer (Raise (OtherError "JSONDecodeError"))) example_state))
             _ _ eq_refl eq_refl). }
  split.
  { exact (proj1 (proj2 (proj2 (unite_get_url_failure_modes "10.15156/BIO/786385"
                                  (answer (Ok (PList []))) example_state)))
             _ _ eq_refl eq_refl I). }
  split.
  { exact (proj1 (proj2 (proj2 (proj2 (unite_get_url_failure_modes "10.15156/BIO/786385"
                    (answer (Ok (PDict [("errors", PList [])]))) example_state))))
             _ _ eq_refl eq_refl eq_refl). }
  split.
  { exact (proj1 (proj2 (proj2 (proj2 (proj2 (unite_get_url_failure_modes
                    "10.15156/BIO/786385"
                    (answer (Ok (PDict [("data", PList [])]))) example_state)))))
             _ _ eq_refl eq_refl eq_refl). }
  split.
  { exact (proj1 (proj2 (proj2 (proj2 (proj2 (proj2 (unite_get_url_failure_modes
                    "10.15156/BIO/786385"
                    (answer (Ok (PDict [("data", PList [PDict [("attributes",
                       PDict [("media", PList [])])]])]))) example_state))))))
             _ _ _ _ _ eq_refl eq_refl eq_refl eq_refl eq_refl). }
  exact (proj2 (proj2 (proj2 (proj2 (proj2 (proj2 (unite_get_url_failure_modes
                  "10.15156/BIO/786385"
                  (answer (Ok (PDict [("data", PList [PDict [("attributes",
                     PDict [("media", PList [PDict [("name", PStr "a.tgz")]])])]])])))
                  example_state))))))
           _ _ _ _ _ _ _ eq_refl eq_refl eq_refl eq_refl eq_refl eq_refl eq_refl).
Defined.

(** ** [_unite_get_tgz]: every way an attempt can end *)

Section Attempts.

Variables (url : pyval) (download_path : string).

Local Abbreviation path := (OsPath.join download_path "unitefile.tar.gz").

(** One pass of the loop, by the way its [try] block ends: the state it
    leaves, and what it returns and prints. *)
Lemma download_pass_outcome retry E s :
  exists tr,
    st_trace (download_pass url download_path retry E s).2
      = st_trace s ++ EvGet url :: tr /\
    Forall download_event tr /\
    requested tr = [] /\
    st_gets (download_pass url download_path retry E s).2 = S (st_gets s) /\
    st_dirs (download_pass url download_path retry E s).2 = st_dirs s /\
    st_tmps (download_pass url download_path retry E s).2 = st_tmps s /\
    st_imports (download_pass url download_path retry E s).2 = st_imports s /\
    (forall p, p <> path ->
       st_files (download_pass url download_path retry E s).2 !! p = st_files s !! p) /\
    match attempt_exception (env_get E (st_gets s) url) with
    | None =>
        (download_pass url download_path retry E s).1 = Ok (Some path) /\
        printed tr = []
    | Some e =>
        match handled e with
        | Some line =>
            (download_pass url download_path retry E s).1 = Ok None /\
            printed tr = [line retry]
        | None =>
            (download_pass url download_path retry E s).1 = Raise e /\
            printed tr = []
        end
    end.
Proof.
  unfold download_pass, try_except, download_attempt, bind, requests_get,
    open_wb, emit, modify, lift, ret, raise, attempt_exception.
  destruct (env_get E (st_gets s) url) as [e|r] eqn:Hget.
  - destruct e; simpl; eexists;
      (split; [rewrite <- ?app_assoc; simpl; reflexivity|]);
      (split; [by repeat constructor|]); done.
  - cbn beta iota. simpl.
    match goal with |- context [write_chunks path _ 0 E ?s'] => set (s1 := s') end.
    destruct (write_chunks_run download_path (resp_chunks r) 0 E s1 "")
      as (tr & Hrun & Htr).
    { subst s1. simpl. apply lookup_insert_eq. }
    rewrite Hrun. clear Hrun. subst s1. simpl.
    rewrite insert_insert_eq, app_empty_l.
    assert (printed tr = [] /\ requested tr = [] /\ Forall download_event tr)
      as (Hpr & Hreq & Htr').
    { clear -Htr. induction Htr as [|e tr [c ->] _ (IH1 & IH2 & IH3)]; [done|].
      repeat split; try done. by constructor. }
    clear Htr. rename Htr' into Htr.
    fold (body r). fold (received r). rewrite Z.add_0_l.
    assert (forall tail, Forall download_event tail -> requested tail = [] ->
              Forall download_event (EvOpenW path :: tr ++ tail) /\
              requested (EvOpenW path :: tr ++ tail) = [] /\
              printed (EvOpenW path :: tr ++ tail) = printed tail) as Hshape.
    { intros tail Htail Hrtail. split; [|split].
      - constructor; [exact I|]. by apply Forall_app.
      - change (requested (tr ++ tail) = []). unfold requested in *.
        by rewrite omap_app, Hreq, Hrtail.
      - change (printed (tr ++ tail) = printed tail). unfold printed in *.
        by rewrite omap_app, Hpr. }
    assert (forall p, p <> path ->
              <[path := body r]> (st_files s) !! p = st_files s !! p) as Hframe.
    { intros p Hp. by apply lookup_insert_ne. }
    destruct (resp_abort r) as [e|] eqn:Habort.
    + destruct e; simpl; rewrite <- ?app_assoc; simpl;
        match goal with
        | |- context [(tr ++ ?tail)%list] =>
            exists (EvOpenW path :: tr ++ tail);
            destruct (Hshape tail) as (H1 & H2 & H3); [by repeat constructor|done|]
        | |- _ =>
            exists (EvOpenW path :: tr ++ []);
            destruct (Hshape []) as (H1 & H2 & H3); [by repeat constructor|done|];
            rewrite ?app_nil_r
        end;
        rewrite ?app_nil_r in *; done.
    + destruct (int_content_length (resp_content_length r)) as [n|e] eqn:Hint.
      * destruct (received r =? n) eqn:Heq; simpl; rewrite <- ?app_assoc; simpl;
          match goal with
          | |- context [(tr ++ ?tail)%list] =>
              exists (EvOpenW path :: tr ++ tail);
              destruct (Hshape tail) as (H1 & H2 & H3); [by repeat constructor|done|]
          | |- _ =>
              exists (EvOpenW path :: tr ++ []);
              destruct (Hshape []) as (H1 & H2 & H3); [by repeat constructor|done|];
              rewrite ?app_nil_r
          end;
          rewrite ?app_nil_r in *; done.
      * destruct (resp_content_length r); try discriminate Hint.
        injection Hint as <-. simpl. rewrite <- ?app_assoc. simpl.
        exists (EvOpenW path :: tr ++ [EvPrint (MsgIncomplete retry)]).
        destruct (Hshape [EvPrint (MsgIncomplete retry)]) as (H1 & H2 & H3);
          [by repeat constructor|done|].
        done.
Qed.

(** The loop leaves everything but its file as it was, returns no path but
    that of its file, and lets no exception through that it handles. *)
Lemma download_loop_frame tries : forall E s,
  st_dirs (download_loop url download_path tries E s).2 = st_dirs s /\
  st_tmps (download_loop url download_path tries E s).2 = st_tmps s /\
  st_imports (download_loop url download_path tries E s).2 = st_imports s /\
  (forall p, p <> path ->
     st_files (download_loop url download_path tries E s).2 !! p = st_files s !! p) /\
  (forall e, (download_loop url download_path tries E s).1 = Raise e ->
     handled e = None).
Proof.
  induction tries as [|retry rest IH]; intros E s; cbn [download_loop].
  - by repeat split.
  - rewrite bind_run.
    destruct (download_pass_outcome retry E s)
      as (tr & _ & _ & _ & _ & Hd & Ht & Hi & Hf & Hcase).
    destruct (download_pass url download_path retry E s) as [[[p|]|e] s1] eqn:Hpass;
      cbn [fst snd] in *.
    + split; [done|]. split; [done|]. split; [done|]. split; [done|]. intros ? [=].
    + destruct (IH E s1) as (Hd' & Ht' & Hi' & Hf' & He').
      split; [congruence|]. split; [congruence|]. split; [congruence|].
      split; [|done]. intros p Hp. by rewrite Hf', Hf.
    + split; [done|]. split; [done|]. split; [done|]. split; [done|].
      intros e' [= <-].
      destruct (attempt_exception (env_get E (st_gets s) url)) as [e0|];
        [|by destruct Hcase].
      destruct (handled e0) eqn:Hh; destruct Hcase as [Hres _]; [done|].
      by injection Hres as <-.
Qed.

(** As long as the attempts are of those the loop goes on after, it goes
    on: one request and one line for each. *)
Lemma download_loop_retried k : forall a rest E s,
  (forall i, (i < k)%nat -> is_Some (retry_line (env_get E (st_gets s + i) url))) ->
  exists s1 tr,
    download_loop url download_path (map Z.of_nat (seq a k) ++ rest) E s
    = download_loop url download_path rest E s1 /\
    st_trace s1 = st_trace s ++ tr /\
    st_gets s1 = (st_gets s + k)%nat /\
    requested tr = replicate k url /\
    printed tr
    = omap (fun i => (fun line => line (Z.of_nat (a + i)))
                       <$> retry_line (env_get E (st_gets s + i) url))
        (seq 0 k).
Proof.
  induction k as [|k IH]; intros a rest E s Hretry.
  - exists s, []. simpl. by rewrite app_nil_r, Nat.add_0_r.
  - match goal with |- context [printed _ = ?rhs] =>
      remember rhs as expected eqn:Hexp
    end.
    destruct (Hretry 0%nat ltac:(lia)) as [line Hline]. rewrite Nat.add_0_r in Hline.
    destruct (download_pass_outcome (Z.of_nat a) E s)
      as (tr & Htr & _ & Hreq & Hgets & _ & _ & _ & _ & Hcase).
    pose proof Hline as Hfirst. unfold retry_line in Hline.
    destruct (attempt_exception (env_get E (st_gets s) url)) as [e|] eqn:Hexn;
      [|discriminate Hline].
    rewrite Hline in Hcase. destruct Hcase as [Hres Hpr].
    cbn [seq map app download_loop]. rewrite bind_run.
    destruct (download_pass url download_path (Z.of_nat a) E s) as [r s1].
    cbn [fst snd] in *. subst r.
    destruct (IH (S a) rest E s1) as (s2 & tr' & Hrun & Htr' & Hgets' & Hreq' & Hpr').
    { intros i Hi. rewrite Hgets.
      replace (S (st_gets s) + i)%nat with (st_gets s + S i)%nat by lia.
      apply Hretry. lia. }
    exists s2, ((EvGet url :: tr) ++ tr'). split; [exact Hrun|].
    split; [by rewrite Htr', Htr, <- app_assoc|].
    split; [lia|].
    rewrite requested_app, printed_app.
    change (requested (EvGet url :: tr)) with (url :: requested tr).
    change (printed (EvGet url :: tr)) with (printed tr).
    rewrite Hreq, Hpr, Hreq', Hpr'. split; [done|].
    subst expected. cbn [seq omap list_omap].
    change (list_omap nat message) with (@omap list _ nat message).
    rewrite !Nat.add_0_r, Hfirst, omap_seq_succ.
    simpl. f_equal.
    apply list_omap_ext, Forall2_same_length_lookup. split; [done|].
    intros i x y Hx Hy. rewrite Hx in Hy. injection Hy as <-.
    rewrite Hgets.
    replace (S (st_gets s) + x)%nat with (st_gets s + S x)%nat by lia.
    by replace (S (a + x))%nat with (a + S x)%nat by lia.
Qed.

(** [range(retries)] up to the attempt of number [k]. *)
Lemma py_range_split retries k :
  (k < Z.to_nat retries)%nat ->
  py_range retries
  = map Z.of_nat (seq 0 k) ++ Z.of_nat k :: map Z.of_nat (seq (S k) (Z.to_nat retries - S k)).
Proof.
  intros Hk. unfold py_range.
  replace (Z.to_nat retries) with (k + S (Z.to_nat retries - S k))%nat at 1 by lia.
  by rewrite seq_app, map_app.
Qed.

End Attempts.

(** X5: with [retries] zero or negative the loop of [_unite_get_tgz] has
    no pass: the call returns [None] and has done nothing, not even asked
    once. *)
Theorem unite_get_tgz_without_attempts url download_path retries E s :
  retries <= 0 ->
  _unite_get_tgz url download_path retries E s = (Ok None, s).
Proof.
  intros Hretries. unfold _unite_get_tgz, py_range.
  by replace (Z.to_nat retries) with 0%nat by lia.
Qed.

Lemma unite_get_tgz_without_attempts_witness :
  _unite_get_tgz (PStr "https://files/unite.tgz") "/tmp/tmp0" (-3)
    (example_env no_network []) example_state
  = (Ok None, example_state).
Proof.
  apply (unite_get_tgz_without_attempts (PStr "https://files/unite.tgz") "/tmp/tmp0" (-3)
           (example_env no_network []) example_state).
  lia.
Defined.



(** X7: an exception that neither [except] clause takes ends the loop at
    once and reaches the caller.  When the attempts before the [k]-th are
    of those the loop goes on after and the [try] block of the [k]-th ends
    with an exception that is neither an [HTTPError] nor a [ValueError],
    [_unite_get_tgz] raises it after [k + 1] requests and [k] printed
    lines. *)
Theorem unite_get_tgz_gives_up_on_other_exception url download_path retries E s k e :
  (k < Z.to_nat retries)%nat ->
  (forall i, (i < k)%nat -> is_Some (retry_line (env_get E (st_gets s + i) url))) ->
  attempt_exception (env_get E (st_gets s + k) url) = Some e ->
  handled e = None ->
  let run := _unite_get_tgz url download_path retries E s in
  run.1 = Raise e /\
  st_gets run.2 = (st_gets s + S k)%nat /\
  requested (events_since s run.2) = replicate (S k) url /\
  printed (events_since s run.2)
  = omap (fun i => (fun line => line (Z.of_nat i))
                     <$> retry_line (env_get E (st_gets s + i) url))
      (seq 0 k).
Proof.
  intros Hk Hretry Hexn Hother run. subst run.
  unfold _unite_get_tgz. rewrite (py_range_split retries k Hk).
  destruct (download_loop_retried url download_path k 0
              (Z.of_nat k :: map Z.of_nat (seq (S k) (Z.to_nat retries - S k))) E s Hretry)
    as (s1 & tr & -> & Htr & Hgets & Hreq & Hpr).
  cbn [download_loop]. rewrite bind_run.
  destruct (download_pass_outcome url download_path (Z.of_nat k) E s1)
    as (tr' & Htr' & _ & Hreq' & Hgets' & _ & _ & _ & _ & Hcase).
  rewrite Hgets, Hexn, Hother in Hcase. destruct Hcase as [Hres Hpr'].
  destruct (download_pass url download_path (Z.of_nat k) E s1) as [res s2].
  cbn [fst snd] in *. subst res. unfold ret. cbn [fst snd].
  assert (st_trace s2 = st_trace s ++ (tr ++ EvGet url :: tr')) as Hall.
  { by rewrite Htr', Htr, <- app_assoc. }
  rewrite (events_since_app _ _ _ Hall), requested_app, printed_app.
  change (requested (EvGet url :: tr')) with (url :: requested tr').
  change (printed (EvGet url :: tr')) with (printed tr').
  rewrite Hreq, Hreq', Hpr, Hpr', app_nil_r, <- replicate_S_end.
  split; [done|]. split; [lia|]. done.
Qed.

Lemma unite_get_tgz_gives_up_on_other_exception_witness :
  let E := example_env (fun n => match n with
                                 | O => GetRaises (HTTPError 503)
                                 | _ => GetRaises (OtherError "ConnectionError")
                                 end) [] in
  let run := _unite_get_tgz (PStr "https://files/unite.tgz") "/tmp/tmp0" 10 E example_state in
  run.1 = Raise (OtherError "ConnectionError") /\
  st_gets run.2 = 2%nat /\
  printed (events_since example_state run.2) = [MsgRequestFailed 503 0].
Proof.
  intros E run.
  destruct (unite_get_tgz_gives_up_on_other_exception
              (PStr "https://files/unite.tgz") "/tmp/tmp0" 10 E example_state 1
              (OtherError "ConnectionError"))
    as (Hres & Hgets & _ & Hpr).
  - vm_compute. lia.
  - intros [|i] Hi; [by eexists|lia].
  - reflexivity.
  - reflexivity.
  - split; [exact Hres|]. split; [exact Hgets|exact Hpr].
Defined.

(** X8: [_unite_get_tgz] never raises an [HTTPError] or a [ValueError],
    whatever the network does and however many attempts it has: these two
    are printed and retried, and when the attempts run out the call returns
    [None]. *)
Theorem unite_get_tgz_never_raises_what_it_handles url download_path retries E s :
  (forall status_code,
     (_unite_get_tgz url download_path retries E s).1 <> Raise (HTTPError status_code)) /\
  (forall msg,
     (_unite_get_tgz url download_path retries E s).1 <> Raise (ValueError msg)).
Proof.
  destruct (download_loop_frame url download_path (py_range retries) E s)
    as (_ & _ & _ & _ & Hexn).
  fold (_unite_get_tgz url download_path retries) in Hexn.
  split; intros x Hres; by specialize (Hexn _ Hres).
Qed.

(** X9: of the file system, [_unite_get_tgz] touches one path, that of
    [unitefile.tar.gz] in the download directory: every other file is as it
    was and no directory is made or removed; nor is a temporary directory
    asked for or an import made. *)
Theorem unite_get_tgz_touches_only_its_file url download_path retries E s :
  let s' := (_unite_get_tgz url download_path retries E s).2 in
  (forall p, p <> OsPath.join download_path "unitefile.tar.gz" ->
     st_files s' !! p = st_files s !! p) /\
  st_dirs s' = st_dirs s /\
  st_tmps s' = st_tmps s /\
  st_imports s' = st_imports s.
Proof.
  intros s'. subst s'.
  destruct (download_loop_frame url download_path (py_range retries) E s)
    as (Hd & Ht & Hi & Hf & _).
  done.
Qed.



Lemma unite_get_tgz_touches_only_its_file_witness :
  let r := {| resp_content_length := HeaderInt 5; resp_chunks := ["abc"; "de"];
              resp_abort := None; resp_json := Raise (ValueError "not JSON") |} in
  let run := _unite_get_tgz (PStr "https://files/unite.tgz") "/tmp/tmp0" 10
               (example_env (fun _ => GetReturns r) []) example_state in
  st_files run.2 !! "/data/unite.tgz" = Some "archive".
Proof.
  intros r run.
  refine (proj1 (unite_get_tgz_touches_only_its_file
                   (PStr "https://files/unite.tgz") "/tmp/tmp0" 10
                   (example_env (fun _ => GetReturns r) []) example_state)
            "/data/unite.tgz" _).
  discriminate.
Defined.

(** ** [_unite_get_artifacts]: the archive, the extraction, the imports *)

Lemma unite_get_artifacts_body tgz_file cluster_id :
  _unite_get_artifacts tgz_file cluster_id
  = let! '(tax_results, seq_results) :=
      with_TemporaryDirectory (artifacts_body tgz_file cluster_id) in
    ret (tax_results, seq_results).
Proof. reflexivity. Qed.

(** The call is its body between the making and the removal of the
    directory. *)
Lemma unite_get_artifacts_inner tgz_file cluster_id E s :
  let d := env_mkdtemp E (st_tmps s) in
  let inner := artifacts_body tgz_file cluster_id d E (mkdtemp E s).2 in
  (_unite_get_artifacts tgz_file cluster_id E s).1 = inner.1 /\
  st_trace (_unite_get_artifacts tgz_file cluster_id E s).2
  = st_trace inner.2 ++ [EvRmtree d] /\
  st_trace (mkdtemp E s).2 = st_trace s ++ [EvMkdtemp d].
Proof.
  intros d inner. rewrite unite_get_artifacts_body, bind_run.
  destruct (with_TemporaryDirectory_run (artifacts_body tgz_file cluster_id) E s)
    as (Hres & Htr & Hmk & _).
  fold d in Hres, Htr, Hmk. fold inner in Hres, Htr.
  destruct (with_TemporaryDirectory (artifacts_body tgz_file cluster_id) E s)
    as [[[tax seq]|e] s']; cbn [fst snd] in *; by rewrite <- Hres.
Qed.

(** The body, phase by phase. *)
Lemma artifacts_body_run tgz_file cluster_id d E s :
  let s1 := log (EvPrint (MsgTemporaryDirectory d)) s in
  match (tarfile_getmembers tgz_file E s1).1 with
  | Raise e => artifacts_body tgz_file cluster_id d E s = (Raise e, s1)
  | Ok tar =>
      match dev_members tar with
      | [] =>
          artifacts_body tgz_file cluster_id d E s
          = (Raise (ValueError "No '_dev' files found"), s1)
      | _ :: _ =>
          match extract_members d (dev_members tar) E s1 with
          | (Raise e, s2) => artifacts_body tgz_file cluster_id d E s = (Raise e, s2)
          | (Ok _, s2) =>
              artifacts_body tgz_file cluster_id d E s
              = os_walk_for (walk_fuel s2) d
                  (fun root dirs files acc => classify_directory cluster_id root files acc)
                  ([], []) E s2
          end
      end
  end.
Proof.
  intros s1. unfold artifacts_body. rewrite bind_run.
  change (print (MsgTemporaryDirectory d) E s) with (Ok tt, s1). cbn beta iota.
  rewrite bind_run.
  assert ((tarfile_getmembers tgz_file E s1).2 = s1) as Hs1.
  { unfold tarfile_getmembers. destruct tgz_file as [path|]; [|done].
    destruct (String.eqb path ""); [done|].
    unfold bind, ask, get_state, lift, raise. by destruct (st_files s1 !! path). }
  destruct (tarfile_getmembers tgz_file E s1) as [[tar|e] s1']; cbn [fst snd] in *;
    subst s1'; [|done].
  cbn zeta. rewrite bind_run.
  destruct (dev_members tar) as [|m ms]; [done|].
  destruct (extract_members d (m :: ms) E s1) as [[[]|e] s2]; [|done].
  cbn beta iota. by rewrite bind_run.
Qed.

(** Opening the archive reads the file system and leaves it as it is. *)
Lemma tarfile_getmembers_result tgz_file E s :
  (tarfile_getmembers tgz_file E s).1
  = match tgz_file with
    | None => Raise (ValueError "nothing to open")
    | Some path =>
        if String.eqb path "" then Raise (ValueError "nothing to open")
        else match st_files s !! path with
             | Some data => env_untar E data
             | None => Raise (OSError "cannot open the file")
             end
    end.
Proof.
  unfold tarfile_getmembers. destruct tgz_file as [path|]; [|done].
  destruct (String.eqb path ""); [done|].
  unfold bind, ask, get_state, lift, raise. by destruct (st_files s !! path).
Qed.

(** When the archive cannot be opened, nothing else happens. *)
Lemma unite_get_artifacts_not_opened tgz_file cluster_id E s e :
  (tarfile_getmembers tgz_file E s).1 = Raise e ->
  let run := _unite_get_artifacts tgz_file cluster_id E s in
  let d := env_mkdtemp E (st_tmps s) in
  run.1 = Raise e /\
  st_trace run.2
  = st_trace s ++ [EvMkdtemp d; EvPrint (MsgTemporaryDirectory d); EvRmtree d].
Proof.
  intros Hopen run d. subst run.
  destruct (unite_get_artifacts_inner tgz_file cluster_id E s) as (Hres & Htr & Hmk).
  fold d in Hres, Htr, Hmk.
  pose proof (artifacts_body_run tgz_file cluster_id d E (mkdtemp E s).2) as Hbody.
  cbn zeta in Hbody.
  rewrite tarfile_getmembers_result in Hbody. rewrite tarfile_getmembers_result in Hopen.
  change (st_files (log (EvPrint (MsgTemporaryDirectory d)) (mkdtemp E s).2))
    with (st_files s) in Hbody.
  rewrite Hopen in Hbody. rewrite Hbody in Hres, Htr. cbn [fst snd] in *.
  split; [done|]. rewrite Htr. cbn [log st_trace].
  rewrite Hmk, <- !app_assoc. done.
Qed.

(** X11: an archive that cannot be opened.  When [tgz_file] is [None] or
    the empty string, [_unite_get_artifacts] raises the [ValueError] of
    [tarfile.open], "nothing to open"; when no file has that path it raises
    an [OSError]; when the file is there and cannot be read as a gzipped tar
    archive it raises the error of the reader.  In each case it has by then
    made its directory, printed its name and removed it, and nothing
    else. *)
Theorem unite_get_artifacts_unreadable_archive tgz_file cluster_id E s :
  let run := _unite_get_artifacts tgz_file cluster_id E s in
  let d := env_mkdtemp E (st_tmps s) in
  let nothing_else :=
    events_since s run.2 = [EvMkdtemp d; EvPrint (MsgTemporaryDirectory d); EvRmtree d] in
  (tgz_file = None \/ tgz_file = Some "" ->
   run.1 = Raise (ValueError "nothing to open") /\ nothing_else) /\
  (forall path, tgz_file = Some path -> path <> "" -> st_files s !! path = None ->
   (exists msg, run.1 = Raise (OSError msg)) /\ nothing_else) /\
  (forall path data e, tgz_file = Some path -> path <> "" ->
   st_files s !! path = Some data -> env_untar E data = Raise e ->
   run.1 = Raise e /\ nothing_else).
Proof.
  intros run d nothing_else. subst run d nothing_else. split; [|split].
  - intros Hnone.
    destruct (unite_get_artifacts_not_opened tgz_file cluster_id E s
                (ValueError "nothing to open")) as [Hres Htr].
    { rewrite tarfile_getmembers_result. by destruct Hnone as [->| ->]. }
    split; [done|by apply events_since_app].
  - intros path -> Hpath Hfile.
    destruct (unite_get_artifacts_not_opened (Some path) cluster_id E s
                (OSError "cannot open the file")) as [Hres Htr].
    { rewrite tarfile_getmembers_result. apply String.eqb_neq in Hpath.
      by rewrite Hpath, Hfile. }
    split; [by eexists|by apply events_since_app].
  - intros path data e -> Hpath Hfile Htar.
    destruct (unite_get_artifacts_not_opened (Some path) cluster_id E s e) as [Hres Htr].
    { rewrite tarfile_getmembers_result. apply String.eqb_neq in Hpath.
      by rewrite Hpath, Hfile. }
    split; [done|by apply events_since_app].
Qed.

Lemma unite_get_artifacts_unreadable_archive_witness :
  let E := {| env_get := fun _ _ => no_network 0%nat;
              env_mkdtemp := fun _ => "/tmp/tmp0";
              env_untar := fun _ => Raise (OtherError "ReadError");
              env_import := fun n _ _ _ => Ok (Artifact n) |} in
  (_unite_get_artifacts None "99" E example_state).1
  = Raise (ValueError "nothing to open") /\
  (exists msg, (_unite_get_artifacts (Some "/data/other.tgz") "99" E example_state).1
               = Raise (OSError msg)) /\
  (_unite_get_artifacts (Some "/data/unite.tgz") "99" E example_state).1
  = Raise (OtherError "ReadError").
Proof.
  intros E. split; [|split].
  - refine (proj1 (proj1 (unite_get_artifacts_unreadable_archive None "99" E example_state)
                     _)).
    by left.
  - refine (proj1 (proj1 (proj2 (unite_get_artifacts_unreadable_archive
                                   (Some "/data/other.tgz") "99" E example_state))
                     "/data/other.tgz" eq_refl _ eq_refl)).
    discriminate.
  - refine (proj1 (proj2 (proj2 (unite_get_artifacts_unreadable_archive
                                   (Some "/data/unite.tgz") "99" E example_state))
                     "/data/unite.tgz" "archive" _ eq_refl _ eq_refl eq_refl)).
    discriminate.
Defined.

Lemma unite_get_artifacts_without_dev_members_witness :
  let E := example_env no_network
             [member_file "release/readme.txt"; member_dir "release/developer"] in
  let run := _unite_get_artifacts (Some "/data/unite.tgz") "99" E example_state in
  run.1 = Raise (ValueError "No '_dev' files found") /\
  events_since example_state run.2
  = [EvMkdtemp "/tmp/tmp0"; EvPrint (MsgTemporaryDirectory "/tmp/tmp0");
     EvRmtree "/tmp/tmp0"].
Proof.
  intros E.
  refine (unite_get_artifacts_without_dev_members "/data/unite.tgz" "archive"
            [member_file "release/readme.txt"; member_dir "release/developer"]
            "99" E example_state _ eq_refl eq_refl eq_refl).
  discriminate.
Defined.

(** *** What is imported, and what a listing must hold *)

Lemma cluster_token_length f tok :
  cluster_token f = Ok tok -> (5 <= List.length (PyStr.split "_" f))%nat.
Proof.
  unfold cluster_token.
  destruct (PyStr.split "_" f !! 4%nat) as [t|] eqn:Hlookup; [|discriminate].
  intros _. apply lookup_lt_Some in Hlookup. lia.
Qed.

Lemma filter_cluster_tokens cluster_id files kept :
  filter_cluster cluster_id files = Ok kept ->
  Forall (fun f => (5 <= List.length (PyStr.split "_" f))%nat) files /\
  Forall (fun f => cluster_token f = Ok cluster_id) kept /\
  (kept <> [] -> Exists (fun f => cluster_token f = Ok cluster_id) files).
Proof.
  revert kept. induction files as [|f files IH]; intros kept; simpl.
  - intros [= <-]. split; [constructor|]. split; [constructor|done].
  - destruct (cluster_token f) as [tok|e] eqn:Htok; [|done].
    destruct (filter_cluster cluster_id files) as [kept'|e]; [|done].
    destruct (IH kept' eq_refl) as (Hall & Hkept & Hex).
    intros [= <-]. split; [constructor; [by eapply cluster_token_length|done]|].
    destruct (String.eqb_spec tok cluster_id) as [->|Hne].
    + split; [by constructor|]. intros _. by apply Exists_cons_hd.
    + split; [done|]. intros Hne'. apply Exists_cons_tl. by apply Hex.
Qed.

Lemma emits_import_files_ok cluster_id root files : forall acc,
  Forall (fun f => cluster_token f = Ok cluster_id) files ->
  emits (import_files root files acc) (import_call_ok cluster_id)
    (fun _ tr => Forall (listing_matched cluster_id) tr).
Proof.
  induction files as [|file rest IH]; intros acc Hfiles; simpl.
  - by apply emits_ret.
  - apply Forall_cons in Hfiles as [Hfile Hrest].
    assert (forall ty vt,
              (ty = "FeatureData[Taxonomy]" /\ vt = "HeaderlessTSVTaxonomyFormat" /\
               PyStr.endswith file ".txt" = true) \/
              (ty = "FeatureData[Sequence]" /\ vt = "MixedCaseDNAFASTAFormat" /\
               PyStr.endswith file ".fasta" = true /\ PyStr.endswith file ".txt" = false) ->
              emits (import_data ty (OsPath.join root file) vt) (import_call_ok cluster_id)
                (fun _ tr => Forall (listing_matched cluster_id) tr)) as Himport.
    { intros ty vt Hcall E s. eexists [_]. simpl. split; [done|]. split.
      - repeat constructor. exists root, file. done.
      - intros _ _. by repeat constructor. }
    destruct (PyStr.endswith file ".txt") eqn:Htxt.
    + eapply emits_bind; [apply Himport; left; done|intros a; by apply IH|].
      intros ? ? tr1 tr2 H1 H2. by apply Forall_app.
    + destruct (PyStr.endswith file ".fasta") eqn:Hfasta; [|by apply IH].
      eapply emits_bind; [apply Himport; right; done|intros a; by apply IH|].
      intros ? ? tr1 tr2 H1 H2. by apply Forall_app.
Qed.

Lemma emits_classify_directory_ok cluster_id root dirs files acc :
  emits (classify_directory cluster_id root files acc) (import_call_ok cluster_id)
    (fun _ tr => Forall (listing_matched cluster_id) (EvListdir root dirs files :: tr)).
Proof.
  unfold classify_directory.
  destruct (filter_cluster cluster_id files) as [kept|e] eqn:Hkept.
  - destruct (filter_cluster_tokens _ _ _ Hkept) as (Hall & Hkept' & Hex).
    intros E s. rewrite bind_run. unfold lift. cbn beta iota.
    revert E s. fold (emits (A := results)).
    destruct kept as [|f kept]; [apply emits_raise|].
    eapply emits_weaken; [by apply emits_import_files_ok|].
    intros acc' tr Htr. constructor; [|done]. split; [done|]. by apply Hex.
  - intros E s. emits_nothing. intros ? [=].
Qed.

Lemma emits_os_walk_for_ok cluster_id fuel : forall top acc,
  emits (os_walk_for fuel top
           (fun root dirs files acc => classify_directory cluster_id root files acc) acc)
    (import_call_ok cluster_id) (fun _ tr => Forall (listing_matched cluster_id) tr).
Proof.
  induction fuel as [|fuel IH]; intros top acc; simpl.
  - by apply emits_ret.
  - apply emits_bind_get_state. intros s.
    destruct (bool_decide (top ∈ st_dirs s)); [|by apply emits_ret].
    eapply emits_bind with
      (Q1 := fun listing tr => tr = [EvListdir top listing.1 listing.2])
      (Q2 := fun listing _ tr =>
               Forall (listing_matched cluster_id)
                 (EvListdir top listing.1 listing.2 :: tr)).
    + intros E s'. eexists [_]. simpl. split; [done|]. split; [by repeat constructor|].
      by intros [dirs files] [= <- <-].
    + intros [dirs files].
      eapply emits_bind; [apply (emits_classify_directory_ok _ _ dirs)| |].
      * intros acc1.
        apply (emits_for_each (import_call_ok cluster_id)
                 (fun _ _ tr => Forall (listing_matched cluster_id) tr));
          [by constructor|intros; by apply Forall_app|].
        intros name acc2. apply IH.
      * intros acc1 acc2 tr1 tr2 H1 H2. simpl in *.
        change (EvListdir top dirs files :: tr1 ++ tr2)
          with ((EvListdir top dirs files :: tr1) ++ tr2).
        by apply Forall_app.
    + by intros [dirs files] acc' tr1 tr2 -> H.
Qed.

(** *** The extraction *)

Lemma tar_extract_run tmpdirname name member E s :
  st_trace (tar_extract tmpdirname name member E s).2
  = st_trace s ++ [EvExtract (PyStr.rstrip_slash (OsPath.join tmpdirname name))] /\
  st_dirs s ⊆ st_dirs (tar_extract tmpdirname name member E s).2.
Proof.
  unfold tar_extract, bind, emit, modify, get_state, ret, raise. cbn beta iota.
  repeat match goal with
         | |- context [if ?b then _ else _] => destruct b
         end; simpl; (split; [done|]); set_solver.
Qed.

(** The members are extracted in their order, each to its base name in
    the directory, until one fails. *)
Lemma extract_members_run tmpdirname members : forall E s,
  exists tr,
    st_trace (extract_members tmpdirname members E s).2 = st_trace s ++ tr /\
    Forall (fun e => exists target, e = EvExtract target) tr /\
    extracted tr `prefix_of` map (extract_target tmpdirname) members /\
    ((extract_members tmpdirname members E s).1 = Ok tt ->
     extracted tr = map (extract_target tmpdirname) members) /\
    st_dirs s ⊆ st_dirs (extract_members tmpdirname members E s).2.
Proof.
  induction members as [|member rest IH]; intros E s; cbn [extract_members].
  - exists []. rewrite app_nil_r. by repeat split.
  - rewrite bind_run.
    destruct (tar_extract_run tmpdirname (OsPath.basename (ti_name member)) member E s)
      as [Htr Hdirs].
    fold (extract_target tmpdirname member) in Htr.
    destruct (tar_extract tmpdirname (OsPath.basename (ti_name member)) member E s)
      as [[[]|e] s1]; cbn [fst snd] in *.
    + destruct (IH E s1) as (tr & Htr' & Hall & Hpre & Hok & Hdirs').
      exists (EvExtract (extract_target tmpdirname member) :: tr).
      rewrite Htr', Htr, <- app_assoc. split; [done|].
      split; [constructor; eauto|]. cbn [map].
      change (extracted (EvExtract (extract_target tmpdirname member) :: tr))
        with (extract_target tmpdirname member :: extracted tr).
      split; [by apply prefix_cons|]. split; [|set_solver].
      intros Hres. by rewrite Hok.
    + exists [EvExtract (extract_target tmpdirname member)]. split; [done|].
      split; [repeat constructor; eauto|]. cbn [map].
      split; [apply prefix_cons, prefix_nil|]. split; [done|done].
Qed.

Lemma extracted_app tr1 tr2 : extracted (tr1 ++ tr2) = extracted tr1 ++ extracted tr2.
Proof. apply omap_app. Qed.

Lemma extracted_none (P : event -> Prop) tr :
  (forall e, P e -> match e with EvExtract _ => False | _ => True end) ->
  Forall P tr -> extracted tr = [].
Proof.
  intros HP. induction 1 as [|e tr He _ IH]; [done|].
  specialize (HP e He). by destruct e.
Qed.

(** No token of [s.split(sep)] holds the separator. *)
Lemma split_tokens_plain s :
  Forall (fun tok => PyStr.contains "/" tok = false) (PyStr.split "/" s).
Proof.
  induction s as [|c s IH]; [by repeat constructor|]. cbn [PyStr.split].
  destruct (Ascii.eqb_spec c "/") as [->|Hne]; [by constructor|].
  assert (Ascii.eqb c "/" = false) as Hc by (by apply Ascii.eqb_neq).
  destruct (PyStr.split "/" s) as [|tok toks].
  - constructor; [|done]. by rewrite contains_slash_cons, Hc.
  - apply Forall_cons in IH as [Htok Htoks]. constructor; [|done].
    by rewrite contains_slash_cons, Htok, Hc.
Qed.

Lemma basename_no_slash p : PyStr.contains "/" (OsPath.basename p) = false.
Proof.
  unfold OsPath.basename. pose proof (split_tokens_plain p) as Hall.
  induction (PyStr.split "/" p) as [|tok toks IH]; [done|].
  apply Forall_cons in Hall as [Htok Htoks].
  destruct toks as [|tok' toks]; [done|]. by apply IH.
Qed.

Lemma emits_extract_members_ok (P : event -> Prop) tmpdirname members :
  (forall target, P (EvExtract target)) ->
  emits (extract_members tmpdirname members) P
    (fun _ tr => Forall (fun e => exists target, e = EvExtract target) tr).
Proof.
  intros HP E s.
  destruct (extract_members_run tmpdirname members E s) as (tr & Htr & Hall & _).
  exists tr. split; [done|]. split; [|done].
  eapply Forall_impl; [exact Hall|]. by intros e [target ->].
Qed.

(** The body of the [with] block imports nothing but files of the cluster,
    and when it returns, every listing had one. *)
Lemma emits_artifacts_body_ok tgz_file cluster_id tmpdirname :
  emits (artifacts_body tgz_file cluster_id tmpdirname) (import_call_ok cluster_id)
    (fun _ tr => Forall (listing_matched cluster_id) tr).
Proof.
  unfold artifacts_body.
  eapply emits_bind with (Q1 := fun _ tr => Forall (listing_matched cluster_id) tr)
                         (Q2 := fun _ _ tr => Forall (listing_matched cluster_id) tr);
    [| |intros; by apply Forall_app].
  { eapply emits_weaken; [by apply emits_emit|]. intros _ tr ->. by repeat constructor. }
  intros _.
  eapply emits_bind with (Q1 := fun _ tr => Forall (listing_matched cluster_id) tr)
                         (Q2 := fun _ _ tr => Forall (listing_matched cluster_id) tr);
    [| |intros; by apply Forall_app].
  { eapply emits_weaken; [apply emits_tarfile_getmembers|]. by intros _ tr ->. }
  intros tar. cbn zeta.
  eapply emits_bind with (Q1 := fun _ tr => Forall (listing_matched cluster_id) tr)
                         (Q2 := fun _ _ tr => Forall (listing_matched cluster_id) tr);
    [| |intros; by apply Forall_app].
  { destruct (dev_members tar); [apply emits_raise|].
    eapply emits_weaken; [by apply emits_extract_members_ok|].
    intros ? tr Hall. eapply Forall_impl; [exact Hall|]. by intros e [target ->]. }
  intros _. apply emits_bind_get_state. intros s. apply emits_os_walk_for_ok.
Qed.


(** X14: when [_unite_get_artifacts] returns, the walk has met no
    directory it could not get past: in every listing each name had at
    least five tokens between underscores and at least one name had the
    cluster identifier as its fifth. *)
Theorem unite_get_artifacts_returns_past_matched_listings
    tgz_file cluster_id E s res :
  (_unite_get_artifacts tgz_file cluster_id E s).1 = Ok res ->
  Forall (listing_matched cluster_id)
    (events_since s (_unite_get_artifacts tgz_file cluster_id E s).2).
Proof.
  intros Hres.
  destruct (unite_get_artifacts_inner tgz_file cluster_id E s) as (Hinner & Htr & Hmk).
  destruct (emits_artifacts_body_ok tgz_file cluster_id (env_mkdtemp E (st_tmps s))
              E (mkdtemp E s).2) as (tr & Hbody & _ & Hall).
  rewrite Hbody, Hmk, <- !app_assoc in Htr.
  rewrite (events_since_app _ _ _ Htr).
  rewrite Hres in Hinner. symmetry in Hinner.
  apply Forall_app. split; [by repeat constructor|].
  apply Forall_app. split; [by eapply Hall|by repeat constructor].
Qed.

Lemma unite_get_artifacts_returns_past_matched_listings_witness :
  let E := example_env no_network
             [member_file "sh/ab_cd_ef_gh_99_dev.txt";
              member_file "sh/ab_cd_ef_gh_97_dev.fasta"] in
  let run := _unite_get_artifacts (Some "/data/unite.tgz") "99" E example_state in
  Forall (listing_matched "99") (events_since example_state run.2).
Proof.
  intros E run.
  exact (unite_get_artifacts_returns_past_matched_listings
           (Some "/data/unite.tgz") "99" E example_state ([Artifact 0], []) eq_refl).
Defined.

(** What the body extracts, when the archive opens. *)
Lemma artifacts_body_extracted tgz_file cluster_id d E s members :
  (tarfile_getmembers tgz_file E s).1 = Ok members ->
  exists tr,
    st_trace (artifacts_body tgz_file cluster_id d E s).2 = st_trace s ++ tr /\
    extracted tr `prefix_of` map (extract_target d) (dev_members members) /\
    (forall res, (artifacts_body tgz_file cluster_id d E s).1 = Ok res ->
       extracted tr = map (extract_target d) (dev_members members)).
Proof.
  intros Hopen. pose proof (artifacts_body_run tgz_file cluster_id d E s) as Hbody.
  cbn zeta in Hbody. rewrite tarfile_getmembers_result in Hbody.
  rewrite tarfile_getmembers_result in Hopen.
  change (st_files (log (EvPrint (MsgTemporaryDirectory d)) s)) with (st_files s) in Hbody.
  rewrite Hopen in Hbody.
  destruct (dev_members members) as [|m ms] eqn:Hdev.
  - rewrite Hbody. exists [EvPrint (MsgTemporaryDirectory d)].
    split; [done|]. split; [done|]. intros ? [=].
  - destruct (extract_members_run d (m :: ms) E (log (EvPrint (MsgTemporaryDirectory d)) s))
      as (trx & Htrx & _ & Hpre & Hok & _).
    destruct (extract_members d (m :: ms) E (log (EvPrint (MsgTemporaryDirectory d)) s))
      as [[[]|e] s2]; cbn [fst snd] in *; rewrite Hbody.
    + destruct (emits_os_walk_for cluster_id (walk_fuel s2) d ([], []) E s2)
        as (trw & Htrw & Hwalk & _).
      exists (EvPrint (MsgTemporaryDirectory d) :: trx ++ trw).
      split.
      { rewrite Htrw. rewrite Htrx. cbn [log st_trace]. by rewrite <- !app_assoc. }
      change (extracted (EvPrint (MsgTemporaryDirectory d) :: trx ++ trw))
        with (extracted (trx ++ trw)).
      rewrite extracted_app, (extracted_none walk_event trw), app_nil_r;
        [|by intros []|done].
      rewrite Hok by done. done.
    + exists (EvPrint (MsgTemporaryDirectory d) :: trx).
      cbn [fst snd].
      split; [rewrite Htrx; cbn [log st_trace]; by rewrite <- !app_assoc|].
      split; [done|]. intros ? [=].
Qed.

(** X15: the directories of the archive are dropped.  Of an archive that
    opens, [_unite_get_artifacts] extracts the members whose path contains
    "_dev", in the order of the archive and until an extraction fails, each
    to its base name, which holds no slash, directly in the temporary
    directory; when the call returns it has extracted them all. *)
Theorem unite_get_artifacts_extracts_flat path data members cluster_id E s :
  path <> "" ->
  st_files s !! path = Some data ->
  env_untar E data = Ok members ->
  let run := _unite_get_artifacts (Some path) cluster_id E s in
  let d := env_mkdtemp E (st_tmps s) in
  extracted (events_since s run.2) `prefix_of` map (extract_target d) (dev_members members) /\
  (forall res, run.1 = Ok res ->
     extracted (events_since s run.2) = map (extract_target d) (dev_members members)) /\
  (forall member, PyStr.contains "/" (OsPath.basename (ti_name member)) = false).
Proof.
  intros Hpath Hfile Htar run d. subst run.
  destruct (unite_get_artifacts_inner (Some path) cluster_id E s) as (Hinner & Htr & Hmk).
  fold d in Hinner, Htr, Hmk.
  destruct (artifacts_body_extracted (Some path) cluster_id d E (mkdtemp E s).2 members)
    as (tr & Hbody & Hpre & Hall).
  { rewrite tarfile_getmembers_result. apply String.eqb_neq in Hpath.
    rewrite Hpath. change (st_files (mkdtemp E s).2) with (st_files s).
    by rewrite Hfile. }
  rewrite Hbody, Hmk, <- !app_assoc in Htr.
  rewrite (events_since_app _ _ _ Htr).
  change (extracted ([EvMkdtemp d] ++ tr ++ [EvRmtree d])) with (extracted (tr ++ [EvRmtree d])).
  rewrite extracted_app, app_nil_r.
  split; [done|]. split; [|intros member; apply basename_no_slash].
  intros res Hres. rewrite Hres in Hinner. symmetry in Hinner. by eapply Hall.
Qed.

Lemma unite_get_artifacts_extracts_flat_witness :
  let E := example_env no_network
             [member_file "release/readme.txt";
              member_file "release/developer/ab_cd_ef_gh_99_dev.fasta";
              member_file "../ab_cd_ef_gh_99_dev.txt"] in
  let run := _unite_get_artifacts (Some "/data/unite.tgz") "99" E example_state in
  extracted (events_since example_state run.2)
  = ["/tmp/tmp0/ab_cd_ef_gh_99_dev.fasta"; "/tmp/tmp0/ab_cd_ef_gh_99_dev.txt"].
Proof.
  intros E run.
  refine (proj1 (proj2 (unite_get_artifacts_extracts_flat
                          "/data/unite.tgz" "archive"
                          [member_file "release/readme.txt";
                           member_file "release/developer/ab_cd_ef_gh_99_dev.fasta";
                           member_file "../ab_cd_ef_gh_99_dev.txt"]
                          "99" E example_state _ eq_refl eq_refl))
            ([Artifact 1], [Artifact 0]) _).
  - discriminate.
  - vm_compute. reflexivity.
Defined.

(** ** [get_unite_data]: how the four steps compose *)

Lemma requested_none (P : event -> Prop) tr :
  (forall e, P e -> match e with EvGet _ => False | _ => True end) ->
  Forall P tr -> requested tr = [].
Proof.
  intros HP. induction 1 as [|e tr He _ IH]; [done|].
  specialize (HP e He). by destruct e.
Qed.

(** Once the DOI and the URL are there: the download and the import, in
    a directory removed at the end. *)
Lemma get_unite_data_inner version taxon_group cluster_id singletons E s doi url s2 :
  (_unite_get_doi version taxon_group singletons E s).1 = Ok doi ->
  _unite_get_url doi E s = (Ok url, s2) ->
  let d1 := env_mkdtemp E (st_tmps s2) in
  let s3 := log (EvPrint (MsgTemporaryDirectory d1)) (mkdtemp E s2).2 in
  let inner := match _unite_get_tgz url d1 retries_default E s3 with
               | (Ok tar_file_path, s4) => _unite_get_artifacts tar_file_path cluster_id E s4
               | (Raise e, s4) => (Raise e, s4)
               end in
  (get_unite_data version taxon_group cluster_id singletons E s).1 = inner.1 /\
  st_trace (get_unite_data version taxon_group cluster_id singletons E s).2
  = st_trace inner.2 ++ [EvRmtree d1].
Proof.
  intros Hdoi Hurl d1 s3 inner. rewrite unite_get_doi_result in Hdoi.
  unfold get_unite_data.
  rewrite bind_run, (unite_get_doi_found _ _ _ _ E s Hdoi), bind_run, Hurl.
  match goal with |- context [with_TemporaryDirectory ?b] => set (body := b) end.
  destruct (with_TemporaryDirectory_run body E s2) as (Hres & Htr & _).
  fold d1 in Hres, Htr.
  assert (body d1 E (mkdtemp E s2).2 = inner) as Hbody.
  { subst body inner. cbn beta. rewrite bind_run.
    change (print (MsgTemporaryDirectory d1) E (mkdtemp E s2).2) with (Ok tt, s3).
    cbn beta iota. by rewrite bind_run. }
  by rewrite Hbody in Hres, Htr.
Qed.

(** X16: [get_unite_data] fails before it makes a directory when it has
    no URL to download from.  For a version or a taxon group the table does
    not have, it raises the [KeyError] of [_unite_get_doi] having printed
    its line and done nothing else: no request is made.  When the triple is
    known and [_unite_get_url] raises, it raises the same exception after
    that one request: no temporary directory is made, no download is
    tried, and the file system is as it was. *)
Theorem get_unite_data_fails_before_any_directory
    version taxon_group cluster_id singletons E s :
  let run := get_unite_data version taxon_group cluster_id singletons E s in
  (forall key, (_unite_get_doi version taxon_group singletons E s).1 = Raise (KeyError key) ->
     run = (Raise (KeyError key), log (EvPrint (MsgUnknownDOI key)) s)) /\
  (forall doi e,
     (_unite_get_doi version taxon_group singletons E s).1 = Ok doi ->
     (_unite_get_url doi E s).1 = Raise e ->
     run.1 = Raise e /\
     events_since s run.2 = [EvGet (PStr (base_url +:+ doi))] /\
     st_files run.2 = st_files s /\ st_dirs run.2 = st_dirs s /\
     st_tmps run.2 = st_tmps s).
Proof.
  intros run. subst run. split.
  - intros key Hdoi. rewrite unite_get_doi_result in Hdoi.
    unfold get_unite_data. by rewrite bind_run, (unite_get_doi_missing _ _ _ _ E s Hdoi).
  - intros doi e Hdoi Hurl. rewrite unite_get_doi_result in Hdoi.
    unfold get_unite_data.
    rewrite bind_run, (unite_get_doi_found _ _ _ _ E s Hdoi), bind_run.
    destruct (unite_get_url_trace doi E s) as [Htr _].
    assert (st_files (_unite_get_url doi E s).2 = st_files s /\
            st_dirs (_unite_get_url doi E s).2 = st_dirs s /\
            st_tmps (_unite_get_url doi E s).2 = st_tmps s) as Hframe.
    { unfold _unite_get_url, bind, requests_get, lift, ret.
      destruct (env_get E (st_gets s) (PStr (base_url +:+ doi))) as [e'|r]; [done|].
      repeat match goal with
             | |- context [match ?r with Ok _ => _ | Raise _ => _ end] => destruct r
             end; done. }
    destruct (_unite_get_url doi E s) as [[url|e'] s2]; cbn [fst snd] in *;
      [discriminate Hurl|].
    injection Hurl as ->. split; [done|]. split; [by apply events_since_app|done].
Qed.

Lemma get_unite_data_fails_before_any_directory_witness :
  get_unite_data "9.0" "plants" "99" false (example_env no_network []) example_state
  = (Raise (KeyError (KStr "plants")),
     log (EvPrint (MsgUnknownDOI (KStr "plants"))) example_state) /\
  (get_unite_data "9.0" "fungi" "99" false (example_env no_network []) example_state).1
  = Raise (OtherError "ConnectionError").
Proof.
  split.
  - exact (proj1 (get_unite_data_fails_before_any_directory "9.0" "plants" "99" false
                    (example_env no_network []) example_state)
             (KStr "plants") eq_refl).
  - exact (proj1 (proj2 (get_unite_data_fails_before_any_directory "9.0" "fungi" "99" false
                           (example_env no_network []) example_state)
                    "10.15156/BIO/2938079" (OtherError "ConnectionError") eq_refl eq_refl)).
Defined.

(** X17: [get_unite_data] makes at most eleven requests: none when the
    triple is unknown; else one for the metadata of the DOI, and when that
    gives a URL, at most ten more, each for that URL as it was returned.
    Nothing else of the call asks the network. *)
Theorem get_unite_data_request_budget version taxon_group cluster_id singletons E s :
  let tr := events_since s (get_unite_data version taxon_group cluster_id singletons E s).2 in
  (List.length (requested tr) <= 11)%nat /\
  (forall e, (_unite_get_doi version taxon_group singletons E s).1 = Raise e ->
     requested tr = []) /\
  (forall doi, (_unite_get_doi version taxon_group singletons E s).1 = Ok doi ->
     match (_unite_get_url doi E s).1 with
     | Raise _ => requested tr = [PStr (base_url +:+ doi)]
     | Ok url =>
         exists n, (n <= 10)%nat /\
           requested tr = PStr (base_url +:+ doi) :: replicate n url
     end).
Proof.
  intros tr. subst tr.
  destruct (unite_dois_lookup version taxon_group singletons) as [doi|e] eqn:Hlookup.
  2:{ assert (requested (events_since s
                (get_unite_data version taxon_group cluster_id singletons E s).2) = [])
        as Hnone.
      { unfold get_unite_data, _unite_get_doi, bind, try_except, lift.
        rewrite Hlookup. destruct e; simpl; rewrite ?events_since_log; try done;
          by rewrite (events_since_app s s []) by (by rewrite app_nil_r). }
      rewrite Hnone. split; [simpl; lia|]. split; [done|].
      intros doi. by rewrite unite_get_doi_result, Hlookup. }
  assert (match (_unite_get_url doi E s).1 with
          | Raise _ =>
              requested (events_since s
                (get_unite_data version taxon_group cluster_id singletons E s).2)
              = [PStr (base_url +:+ doi)]
          | Ok url =>
              exists n, (n <= 10)%nat /\
                requested (events_since s
                  (get_unite_data version taxon_group cluster_id singletons E s).2)
                = PStr (base_url +:+ doi) :: replicate n url
          end) as Hcase.
  { destruct (unite_get_url_trace doi E s) as [Hmeta _].
    destruct (_unite_get_url doi E s) as [[url|e] s2] eqn:Hurl; cbn [fst snd] in *.
    2:{ unfold get_unite_data.
        rewrite bind_run, (unite_get_doi_found _ _ _ _ E s Hlookup), bind_run, Hurl.
        cbn [snd]. by rewrite (events_since_app _ _ _ Hmeta). }
    destruct (get_unite_data_inner version taxon_group cluster_id singletons E s doi url s2)
      as [_ Htr]; [by rewrite unite_get_doi_result|done|].
    cbn zeta in Htr.
    set (d1 := env_mkdtemp E (st_tmps s2)) in *.
    set (s3 := log (EvPrint (MsgTemporaryDirectory d1)) (mkdtemp E s2).2) in *.
    assert (st_trace s3 = st_trace s ++ [EvGet (PStr (base_url +:+ doi));
                                         EvMkdtemp d1;
                                         EvPrint (MsgTemporaryDirectory d1)]) as Hs3.
    { subst s3. cbn [log mkdtemp snd st_trace]. by rewrite Hmeta, <- !app_assoc. }
    destruct (download_loop_bound url d1 (py_range retries_default) E s3)
      as (trg & Htrg & _ & Hlen & Hall).
    fold (_unite_get_tgz url d1 retries_default) in Htrg.
    exists (List.length (requested trg)). split; [exact Hlen|].
    assert (requested trg = replicate (List.length (requested trg)) url) as Hrep.
    { symmetry. apply replicate_as_Forall. split; [done|].
      eapply Forall_impl; [exact Hall|]. by intros ? ->. }
    destruct (_unite_get_tgz url d1 retries_default E s3) as [[p|e] s4];
      cbn [fst snd] in *.
    - destruct (unite_get_artifacts_run p cluster_id E s4) as (tr2 & Htr2 & Hw & _).
      cbn zeta in Htr2. rewrite Htr2, Htrg, Hs3, <- !app_assoc in Htr.
      rewrite (events_since_app _ _ _ Htr). cbn [app].
      change (requested (EvGet ?u :: EvMkdtemp d1 :: EvPrint ?m :: ?rest))
        with (u :: requested rest).
      rewrite requested_app.
      change (requested (EvMkdtemp ?d :: ?rest)) with (requested rest).
      rewrite !requested_app, (requested_none workspace_event tr2);
        [|by intros []|done].
      cbn [app]. change (requested [EvRmtree ?d]) with (@nil pyval).
      by rewrite !app_nil_r, <- Hrep.
    - rewrite Htrg, Hs3, <- !app_assoc in Htr.
      rewrite (events_since_app _ _ _ Htr). cbn [app].
      change (requested (EvGet ?u :: EvMkdtemp d1 :: EvPrint ?m :: ?rest))
        with (u :: requested rest).
      rewrite requested_app, app_nil_r. by rewrite <- Hrep. }
  split.
  - destruct (_unite_get_url doi E s).1 as [url|e].
    + destruct Hcase as (n & Hn & ->). simpl. rewrite length_replicate. lia.
    + rewrite Hcase. simpl. lia.
  - split; [intros e; by rewrite unite_get_doi_result, Hlookup|].
    intros doi'. rewrite unite_get_doi_result, Hlookup. by intros [= <-].
Qed.

Lemma get_unite_data_request_budget_witness :
  let E := example_env
             (fun n =>
                match n with
                | O => GetReturns
                         {| resp_content_length := HeaderAbsent; resp_chunks := [];
                            resp_abort := None;
                            resp_json :=
                              Ok (PDict [("data", PList [PDict [("attributes",
                                    PDict [("media",
                                      PList [PDict [("url", PStr "https://files/unite.tgz")]])])]])]) |}
                | _ => GetRaises (HTTPError 503)
                end) [] in
  let run := get_unite_data "8.2" "fungi" "99" false E example_state in
  exists n, (n <= 10)%nat /\
    requested (events_since example_state run.2)
    = PStr (base_url +:+ "10.15156/BIO/786385") :: replicate n (PStr "https://files/unite.tgz").
Proof.
  intros E run.
  exact (proj2 (proj2 (get_unite_data_request_budget "8.2" "fungi" "99" false E example_state))
           "10.15156/BIO/786385" eq_refl).
Defined.

Lemma join_unitefile_not_empty d : OsPath.join d "unitefile.tar.gz" <> "".
Proof.
  unfold OsPath.join. change (PyStr.startswith "unitefile.tar.gz" "/") with false.
  cbn iota. intros Hempty. apply (f_equal String.length) in Hempty.
  destruct (String.eqb d "" || PyStr.endswith d "/");
    rewrite !app_length_str in Hempty; simpl in Hempty; lia.
Qed.

(** X18: the size of the body is all [get_unite_data] checks of a
    download.  When the triple is known, the metadata give a URL and the
    first answer for that URL delivers as many bytes as it announces, the
    call opens these bytes as the archive; if they are no gzipped tar
    archive, it raises the error of the reader, after two requests and
    without a second attempt, having extracted and imported nothing. *)
Theorem get_unite_data_opens_what_it_downloaded
    version taxon_group cluster_id singletons E s doi url r e :
  (_unite_get_doi version taxon_group singletons E s).1 = Ok doi ->
  (_unite_get_url doi E s).1 = Ok url ->
  env_get E (S (st_gets s)) url = GetReturns r ->
  resp_abort r = None ->
  int_content_length (resp_content_length r) = Ok (received r) ->
  env_untar E (body r) = Raise e ->
  let run := get_unite_data version taxon_group cluster_id singletons E s in
  run.1 = Raise e /\
  requested (events_since s run.2) = [PStr (base_url +:+ doi); url] /\
  extracted (events_since s run.2) = [] /\
  (forall semantic_type, imported semantic_type (events_since s run.2) = []).
Proof.
  intros Hdoi Hurl Hget Habort Hlen Htar run. subst run.
  destruct (unite_get_url_trace doi E s) as [Hmeta Hgets].
  destruct (_unite_get_url doi E s) as [res s2] eqn:Hrun. cbn [fst snd] in *. subst res.
  destruct (get_unite_data_inner version taxon_group cluster_id singletons E s doi url s2
              Hdoi Hrun) as [Hres Htr].
  cbn zeta in Hres, Htr.
  set (d1 := env_mkdtemp E (st_tmps s2)) in *.
  set (s3 := log (EvPrint (MsgTemporaryDirectory d1)) (mkdtemp E s2).2) in *.
  assert (st_trace s3 = st_trace s ++ [EvGet (PStr (base_url +:+ doi));
                                       EvMkdtemp d1;
                                       EvPrint (MsgTemporaryDirectory d1)]) as Hs3.
  { subst s3. cbn [log mkdtemp snd st_trace]. by rewrite Hmeta, <- !app_assoc. }
  assert (st_gets s3 = S (st_gets s)) as Hgets3 by (by rewrite <- Hgets).
  set (path := OsPath.join d1 "unitefile.tar.gz") in *.
  assert (exists s4 trg,
            _unite_get_tgz url d1 retries_default E s3 = (Ok (Some path), s4) /\
            st_trace s4 = st_trace s3 ++ EvGet url :: trg /\
            Forall download_event trg /\ requested trg = [] /\
            st_files s4 !! path = Some (body r)) as (s4 & trg & Htgz & Htrg & Hev & Hreq & Hfile).
  { unfold _unite_get_tgz.
    change (py_range retries_default) with (0 :: map Z.of_nat (seq 1 9)).
    cbn [download_loop]. rewrite bind_run.
    destruct (download_pass_outcome url d1 0 E s3)
      as (trg & Htrg & Hev & Hreq & _ & _ & _ & _ & _ & Hcase).
    destruct (download_pass_run url d1 0 E s3) as (tr0 & _ & _ & _ & _ & Hfile).
    rewrite Hgets3, Hget in Hcase, Hfile. destruct Hfile as [Hfile _].
    unfold attempt_exception in Hcase. rewrite Habort, Hlen, Z.eqb_refl in Hcase.
    destruct Hcase as [Hpass _].
    destruct (download_pass url d1 0 E s3) as [res s4]. cbn [fst snd] in *. subst res.
    exists s4, trg. done. }
  rewrite Htgz in Hres, Htr.
  destruct (unite_get_artifacts_not_opened (Some path) cluster_id E s4 e) as [Hraise Htr2].
  { rewrite tarfile_getmembers_result.
    pose proof (join_unitefile_not_empty d1) as Hne. apply String.eqb_neq in Hne.
    fold path in Hne. by rewrite Hne, Hfile. }
  cbn zeta in Hraise, Htr2. rewrite Hraise in Hres. split; [exact Hres|].
  set (d2 := env_mkdtemp E (st_tmps s4)) in *.
  rewrite Htr2, Htrg, Hs3, <- !app_assoc in Htr.
  rewrite (events_since_app _ _ _ Htr). cbn [app].
  assert (extracted trg = [] /\ forall ty, imported ty trg = []) as [Hx Hi].
  { clear -Hev. induction Hev as [|ev tr Hd _ [IH1 IH2]]; [done|].
    split; [by destruct ev|]. intros ty. specialize (IH2 ty). by destruct ev. }
  split; [|split].
  - change (requested (EvGet ?u :: EvMkdtemp d1 :: EvPrint ?m :: EvGet ?v :: ?rest))
      with (u :: v :: requested rest).
    by rewrite requested_app, Hreq.
  - change (extracted (EvGet ?u :: EvMkdtemp d1 :: EvPrint ?m :: EvGet ?v :: ?rest))
      with (extracted rest).
    by rewrite extracted_app, Hx.
  - intros ty.
    change (imported ty (EvGet ?u :: EvMkdtemp d1 :: EvPrint ?m :: EvGet ?v :: ?rest))
      with (imported ty rest).
    by rewrite imported_app, Hi.
Qed.

Lemma get_unite_data_opens_what_it_downloaded_witness :
  let page := {| resp_content_length := HeaderInt 17; resp_chunks := ["<html>"; "oops"; "</html>"];
                 resp_abort := None; resp_json := Raise (ValueError "not JSON") |} in
  let E := {| env_get := fun n _ =>
                match n with
                | O => GetReturns
                         {| resp_content_length := HeaderAbsent; resp_chunks := [];
                            resp_abort := None;
                            resp_json :=
                              Ok (PDict [("data", PList [PDict [("attributes",
                                    PDict [("media",
                                      PList [PDict [("url", PStr "https://files/unite.tgz")]])])]])]) |}
                | _ => GetReturns page
                end;
              env_mkdtemp := fun n => match n with O => "/tmp/tmp0" | _ => "/tmp/tmp1" end;
              env_untar := fun _ => Raise (OtherError "ReadError");
              env_import := fun n _ _ _ => Ok (Artifact n) |} in
  let run := get_unite_data "8.2" "fungi" "99" false E example_state in
  run.1 = Raise (OtherError "ReadError") /\
  requested (events_since example_state run.2)
  = [PStr (base_url +:+ "10.15156/BIO/786385"); PStr "https://files/unite.tgz"].
Proof.
  intros page E run.
  destruct (get_unite_data_opens_what_it_downloaded "8.2" "fungi" "99" false E example_state
              "10.15156/BIO/786385" (PStr "https://files/unite.tgz") page
              (OtherError "ReadError") eq_refl eq_refl eq_refl eq_refl eq_refl eq_refl)
    as (Hres & Hreq & _).
  split; [exact Hres|exact Hreq].
Defined.

(** ** The file system outside the temporary directories *)
































(** ** What a normal return of [_unite_get_artifacts] needs in the archive *)











(** ** A directory among the members *)











